(** * Digital twin for a sustainable building: energy model and assessments

    Shallow embedding of [System_Engineering_Integration/main.py].

    Numbers.  Python [int] is [Z].  Python and NumPy floats are modelled by
    exact rationals [Q]: a decimal literal such as [0.85] denotes 85/100 and
    [+], [-], [*], [/] are exact, so rounding, infinities and NaN are outside
    the model.  Equalities between computed quantities are stated with [==].
    [np.pi] and [np.sin] are parameters of the generator.

    Effects.  The NumPy global generator is a tape of draws with a cursor;
    [np.random.normal] and [np.random.poisson] read the tape at the cursor and
    advance it.  A call either returns or raises ([outcome]); the operations
    of NumPy and pandas that raise [ValueError] on mismatched lengths do so in
    the model.  [datetime.now()] is a tape of instants indexed by the number
    of the call.  [ZeroDivisionError] and the [OverflowError] of [datetime]
    arithmetic are not raised by the model, which follows the code where the
    efficiency and the daylight threshold are nonzero ([divisors_nonzero])
    and the timestamps stay in the range of [datetime]
    ([timestamps_representable]); a theorem whose subject is that a call
    completes states these conditions, the others describe the table
    returned.

    Tables.  A [pandas.DataFrame] is the list of its rows, in index order;
    [df[c]] is the projection of column [c], [iterrows] the list itself. *)

From Stdlib Require Import String QArith Qabs Qminmax Qround ZArith List Lia Lqa Bool.
Import ListNotations.
Open Scope Q_scope.

(* ------------------------------------------------------------------ *)
(** ** Python and NumPy primitives *)

Module Py.

(** [max(a, b)]: the first argument unless the second is strictly larger. *)
Definition max (a b : Q) : Q := if Qle_bool b a then a else b.

(** [min(a, b)]: the first argument unless the second is strictly smaller. *)
Definition min (a b : Q) : Q := if Qle_bool a b then a else b.

(** [abs(x)] *)
Definition abs (x : Q) : Q := Qabs x.

(** [int(x)] on a float: truncation towards zero. *)
Definition int (x : Q) : Z := Z.quot (Qnum x) (Z.pos (Qden x)).

(** [range(n)] *)
Definition range (n : Z) : list Z := map Z.of_nat (seq 0 (Z.to_nat n)).

(** [range(n, 0, -1)]: n, n-1, ..., 1 *)
Definition range_down (n : Z) : list Z :=
  map (fun k => (n - Z.of_nat k)%Z) (seq 0 (Z.to_nat n)).

(** [len(l)] *)
Definition len {A} (l : list A) : Z := Z.of_nat (length l).

(** [enumerate(l)], counting from 0 *)
Definition enumerate {A} (l : list A) : list (nat * A) :=
  combine (seq 0 (length l)) l.

(** Sum of a column, [Series.sum()]; 0 on the empty column. *)
Definition sum (l : list Q) : Q := fold_left Qplus l 0.

End Py.

(** A call returns a value or raises. *)
Inductive exn : Set := ValueError.

Inductive outcome (A : Type) : Type :=
| Returned (a : A)
| Raised (e : exn).
Arguments Returned {A} a.
Arguments Raised {A} e.

Definition raises {A} (o : outcome A) : Prop := exists e, o = Raised e.

(** State of [np.random]: the draws still to come and how many were taken.
    [std_normal k] is the standard normal deviate behind the k-th draw when
    that draw is a [normal]; [poisson_count k] its count when it is a
    [poisson]. *)
Record RandomState : Type := mkRandomState {
  std_normal : nat -> Q;
  poisson_count : nat -> nat;
  cursor : nat
}.

Definition advance (st : RandomState) : RandomState :=
  mkRandomState (std_normal st) (poisson_count st) (S (cursor st)).

(** Computations that draw random numbers and may raise. *)
Definition M (A : Type) : Type := RandomState -> outcome (A * RandomState).

Definition ret {A} (a : A) : M A := fun st => Returned (a, st).

Definition bind {A B} (m : M A) (k : A -> M B) : M B :=
  fun st => match m st with
            | Returned (a, st') => k a st'
            | Raised e => Raised e
            end.

Definition lift {A} (o : outcome A) : M A :=
  fun st => match o with
            | Returned a => Returned (a, st)
            | Raised e => Raised e
            end.

Declare Scope py_scope.
Delimit Scope py_scope with py.
Notation "x <- c ;; k" := (bind c (fun x => k))
  (at level 61, c at next level, right associativity) : py_scope.
Open Scope py_scope.

(** [[f(x) for x in xs]] where [f] may draw. *)
Fixpoint comprehension {A B} (f : A -> M B) (xs : list A) : M (list B) :=
  match xs with
  | [] => ret []
  | x :: xs' =>
      y <- f x ;;
      ys <- comprehension f xs' ;;
      ret (y :: ys)
  end.

Module np.

(** [np.random.normal(loc, scale)] *)
Definition random_normal (loc scale : Q) : M Q :=
  fun st => Returned (loc + scale * std_normal st (cursor st), advance st).

(** [np.random.poisson(lam)]: some count, whatever the rate. *)
Definition random_poisson (lam : Q) : M Z :=
  fun st => Returned (Z.of_nat (poisson_count st (cursor st)), advance st).

(** Elementwise [a op b] on one-dimensional arrays, with broadcasting of
    a one-element operand; [ValueError] when the shapes do not agree. *)
Fixpoint zip_with (op : Q -> Q -> Q) (a b : list Q) : list Q :=
  match a, b with
  | x :: a', y :: b' => op x y :: zip_with op a' b'
  | _, _ => []
  end.

Definition binop (op : Q -> Q -> Q) (a b : list Q) : outcome (list Q) :=
  if Nat.eqb (length a) (length b) then Returned (zip_with op a b)
  else if Nat.eqb (length a) 1 then Returned (map (op (hd 0 a)) b)
  else if Nat.eqb (length b) 1 then Returned (map (fun x => op x (hd 0 b)) a)
  else Raised ValueError.

Definition add := binop Qplus.
Definition sub := binop Qminus.

(** [-a] *)
Definition neg (a : list Q) : list Q := map Qopp a.

(** [np.maximum(a, s)] with a scalar [s]: [a_i] where [a_i > s], else [s]. *)
Definition maximum (a : list Q) (s : Q) : list Q :=
  map (fun x => if Qle_bool x s then s else x) a.

End np.

(* ------------------------------------------------------------------ *)
(** ** Tables *)

(** Instants and durations are counted in microseconds. *)
Definition timedelta_hours (i : Z) : Z := (i * 3600000000)%Z.

(** A row of the sensor table. *)
Record SensorRow : Type := mkSensorRow {
  timestamp : Z;
  temperature : Q;
  humidity : Q;
  light_level : Q;
  energy_consumption_kw : Q;
  occupancy : Z
}.

(** A row of the energy-balance table. *)
Record BalanceRow : Type := mkBalanceRow {
  b_timestamp : Z;
  hvac_consumption : Q;
  lighting_consumption : Q;
  base_load : Q;
  solar_generation : Q;
  total_consumption : Q;
  net_energy : Q;
  grid_import : Q;
  grid_export : Q
}.

Module pd.

Definition all_len (n : nat) (ls : list nat) : bool :=
  forallb (Nat.eqb n) ls.

(** [pd.DataFrame({...})] of the six sensor columns: row i holds the i-th
    entry of every column; columns of different lengths raise. *)
Definition DataFrame_sensor (ts : list Z) (temp hum light energy : list Q)
    (occ : list Z) : outcome (list SensorRow) :=
  if all_len (length ts)
       [length temp; length hum; length light; length energy; length occ]
  then Returned
         (map (fun i => mkSensorRow (nth i ts 0%Z) (nth i temp 0) (nth i hum 0)
                          (nth i light 0) (nth i energy 0) (nth i occ 0%Z))
              (seq 0 (length ts)))
  else Raised ValueError.

(** [pd.DataFrame({...})] of the nine balance columns. *)
Definition DataFrame_balance (ts : list Z)
    (hvac light base solar total net imp exp : list Q)
    : outcome (list BalanceRow) :=
  if all_len (length ts)
       [length hvac; length light; length base; length solar;
        length total; length net; length imp; length exp]
  then Returned
         (map (fun i => mkBalanceRow (nth i ts 0%Z) (nth i hvac 0)
                          (nth i light 0) (nth i base 0) (nth i solar 0)
                          (nth i total 0) (nth i net 0) (nth i imp 0)
                          (nth i exp 0))
              (seq 0 (length ts)))
  else Raised ValueError.

End pd.


(* ------------------------------------------------------------------ *)
(** ** class SensorData *)

Section SensorData.

(** [np.pi] and [np.sin]. *)
Variable np_pi : Q.
Variable np_sin : Q -> Q.

(** [datetime.now()], as the instant returned by its k-th evaluation. *)
Variable datetime_now : nat -> Z.

Definition base_temp : Q := 25.

(** [generate_realistic_data(self, hours=24*7)].  The attributes set by
    [__init__] are five empty dictionaries that no method reads.  Timestamps
    are integers without bound; the code raises [OverflowError] when one of
    them leaves the range of [datetime]. *)
Definition generate_realistic_data (hours : Z) : M (list SensorRow) :=
  let timestamps :=
    map (fun ki => (datetime_now (fst ki) - timedelta_hours (snd ki))%Z)
        (Py.enumerate (Py.range_down hours)) in
  temp_variation <-
    comprehension
      (fun i => n <- np.random_normal 0 1 ;;
                ret (base_temp + 5 * np_sin (2 * np_pi * inject_Z i / 24) + n))
      (Py.range hours) ;;
  humidity_data <-
    comprehension
      (fun temp => n <- np.random_normal 0 3 ;;
                   ret (60 - (temp - base_temp) + n))
      temp_variation ;;
  light_data <-
    comprehension
      (fun i => if (i mod 24 <? 12)%Z
                then n <- np.random_normal 0 50 ;;
                     ret (Py.max 0 (800 * np_sin (np_pi * inject_Z i / 12) + n))
                else np.random_normal 10 5)
      (Py.range hours) ;;
  energy_data <-
    comprehension
      (fun i => n <- np.random_normal 0 (5 # 10) ;;
                ret (2 + 3 * np_sin (2 * np_pi * inject_Z i / 24) + n))
      (Py.range hours) ;;
  occupancy_data <-
    comprehension
      (fun i => if ((8 <=? i mod 24) && (i mod 24 <=? 18))%Z
                then ret (Z.max 0
                            (Py.int (20 * np_sin (np_pi * inject_Z (i mod 24) / 12))))
                else np.random_poisson 2)
      (Py.range hours) ;;
  lift (pd.DataFrame_sensor timestamps temp_variation humidity_data light_data
          energy_data occupancy_data).

End SensorData.

(* ------------------------------------------------------------------ *)
(** ** class HVACSystem *)

Record HVACSystem : Type := mkHVACSystem {
  target_temp : Q;
  hvac_efficiency : Q;
  power_rating : Q;
  status : string
}.

Definition HVACSystem_init : HVACSystem :=
  mkHVACSystem 24 (85 # 100) 50 "AUTO".

(** Default of the parameter [external_temp]. *)
Definition external_temp_default : Q := 30.

(** [calculate_load(self, current_temp, occupancy, external_temp=30)].
    The code raises [ZeroDivisionError] for an efficiency of zero, where the
    quotient below is 0. *)
Definition calculate_load (self : HVACSystem) (current_temp : Q) (occ : Z)
    (external_temp : Q) : Q :=
  let temp_diff := Py.abs (current_temp - target_temp self) in
  let occupancy_load := inject_Z occ * (1 # 10) in
  let external_load := (external_temp - target_temp self) * (5 # 100) in
  let total_load :=
    (temp_diff * 2 + occupancy_load + external_load) / hvac_efficiency self in
  Py.min total_load (power_rating self).

(** A row of the table of recommendations. *)
Record Recommendation : Type := mkRecommendation {
  r_timestamp : Z;
  recommended_temp : Q;
  predicted_load : Q
}.

(** [optimize_settings(self, forecast_data)] *)
Definition optimize_settings (self : HVACSystem) (forecast_data : list SensorRow)
    : list Recommendation :=
  map (fun row =>
         let rec_temp := if (occupancy row =? 0)%Z
                         then target_temp self + 2
                         else target_temp self in
         mkRecommendation (timestamp row) rec_temp
           (calculate_load self (temperature row) (occupancy row)
              external_temp_default))
      forecast_data.

(* ------------------------------------------------------------------ *)
(** ** class LightingSystem *)

Record LightingSystem : Type := mkLightingSystem {
  fixtures : Z;
  power_per_fixture : Q;
  daylight_threshold : Q
}.

Definition LightingSystem_init : LightingSystem :=
  mkLightingSystem 100 (4 # 100) 300.

(** [calculate_lighting_need(self, ambient_light, occupancy)].  The code
    raises [ZeroDivisionError] when the division is reached with a threshold
    of zero, where the quotient below is 0. *)
Definition calculate_lighting_need (self : LightingSystem) (ambient_light : Q)
    (occ : Z) : Q :=
  if (occ =? 0)%Z then 0
  else if negb (Qle_bool (daylight_threshold self) ambient_light)
  then
    let dimming_factor := 1 - ambient_light / daylight_threshold self in
    inject_Z (fixtures self) * power_per_fixture self * dimming_factor
  else 0.

(** [energy_consumption(self, sensor_data)] *)
Definition energy_consumption (self : LightingSystem)
    (sensor_data : list SensorRow) : list Q :=
  map (fun row => calculate_lighting_need self (light_level row) (occupancy row))
      sensor_data.

(* ------------------------------------------------------------------ *)
(** ** class SolarPVSystem *)

Record SolarPVSystem : Type := mkSolarPVSystem {
  capacity : Q;
  solar_efficiency : Q;
  area : Q
}.

Definition SolarPVSystem_init : SolarPVSystem :=
  mkSolarPVSystem 100 (18 # 100) 500.

Definition weather_factor_default : Q := 9 # 10.

(** [calculate_generation(self, light_data, weather_factor=0.9)] *)
Definition calculate_generation (self : SolarPVSystem) (light_data : list Q)
    (weather_factor : Q) : list Q :=
  map (fun light =>
         let irradiance := Py.min (light * (1 # 10)) 1000 in
         let power := irradiance / 1000 * capacity self * weather_factor in
         Py.max 0 power)
      light_data.

(* ------------------------------------------------------------------ *)
(** ** class BuildingEnergyManagement *)

Record BuildingEnergyManagement : Type := mkBuildingEnergyManagement {
  hvac : HVACSystem;
  lighting : LightingSystem;
  solar : SolarPVSystem;
  grid_connection : bool
}.

Definition BuildingEnergyManagement_init : BuildingEnergyManagement :=
  mkBuildingEnergyManagement HVACSystem_init LightingSystem_init
    SolarPVSystem_init true.

(** [calculate_energy_balance(self, sensor_data)] *)
Definition calculate_energy_balance (self : BuildingEnergyManagement)
    (sensor_data : list SensorRow) : M (list BalanceRow) :=
  let hvac_cons :=
    map (fun row => calculate_load (hvac self) (temperature row) (occupancy row)
                      external_temp_default)
        sensor_data in
  let lighting_cons := energy_consumption (lighting self) sensor_data in
  base <-
    comprehension (fun _ => n <- np.random_normal 0 (2 # 10) ;; ret (3 + n))
      (Py.range (Py.len sensor_data)) ;;
  let solar_gen :=
    calculate_generation (solar self) (map light_level sensor_data)
      weather_factor_default in
  hvac_light <- lift (np.add hvac_cons lighting_cons) ;;
  total <- lift (np.add hvac_light base) ;;
  net <- lift (np.sub total solar_gen) ;;
  lift (pd.DataFrame_balance (map timestamp sensor_data) hvac_cons lighting_cons
          base solar_gen total net
          (np.maximum net 0) (np.maximum (np.neg net) 0)).

(* ------------------------------------------------------------------ *)
(** ** class SustainabilityAssessment *)

Record SustainabilityAssessment : Type := mkSustainabilityAssessment {
  ecbc_epi_limit : Q;
  building_area : Q;
  emission_factor : Q
}.

Definition SustainabilityAssessment_init : SustainabilityAssessment :=
  mkSustainabilityAssessment 200 5000 (82 # 100).

(** [calculate_epi(self, annual_consumption)] *)
Definition calculate_epi (self : SustainabilityAssessment)
    (annual_consumption : Q) : Q :=
  annual_consumption / building_area self.

(** The dictionary returned by [assess_ecbc_compliance]. *)
Record EcbcAssessment : Type := mkEcbcAssessment {
  annual_consumption_kwh : Q;
  epi_kwh_m2_year : Q;
  ecbc_limit : Q;
  compliance : bool;
  savings_potential : Q
}.

(** [assess_ecbc_compliance(self, energy_data)] *)
Definition assess_ecbc_compliance (self : SustainabilityAssessment)
    (energy_data : list BalanceRow) : outcome EcbcAssessment :=
  let weekly_consumption := Py.sum (map total_consumption energy_data) in
  let annual_consumption := weekly_consumption * 52 in
  let epi := calculate_epi self annual_consumption in
  let compliant := Qle_bool epi (ecbc_epi_limit self) in
  Returned
    (mkEcbcAssessment annual_consumption epi (ecbc_epi_limit self) compliant
       (Py.max 0 (epi - ecbc_epi_limit self) * building_area self)).

(** The dictionary returned by [calculate_carbon_footprint]. *)
Record CarbonAssessment : Type := mkCarbonAssessment {
  gross_emissions_kg_co2 : Q;
  carbon_offset_kg_co2 : Q;
  net_emissions_kg_co2 : Q;
  annual_net_emissions_tonnes : Q
}.

(** [calculate_carbon_footprint(self, energy_data)] *)
Definition calculate_carbon_footprint (self : SustainabilityAssessment)
    (energy_data : list BalanceRow) : outcome CarbonAssessment :=
  let net_emissions :=
    Py.sum (map grid_import energy_data) * emission_factor self in
  let carbon_offset :=
    Py.sum (map grid_export energy_data) * emission_factor self in
  Returned
    (mkCarbonAssessment net_emissions carbon_offset
       (net_emissions - carbon_offset)
       ((net_emissions - carbon_offset) * 52 / 1000)).

(* ------------------------------------------------------------------ *)
(** ** Row-wise reading of the aggregator *)

(** The balance row that the column-wise computation of
    [calculate_energy_balance] yields for one sensor row and one base-load
    draw. *)
Definition balance_row (self : BuildingEnergyManagement) (row : SensorRow)
    (b : Q) : BalanceRow :=
  let h := calculate_load (hvac self) (temperature row) (occupancy row)
             external_temp_default in
  let l := calculate_lighting_need (lighting self) (light_level row)
             (occupancy row) in
  let irradiance := Py.min (light_level row * (1 # 10)) 1000 in
  let s := Py.max 0 (irradiance / 1000 * capacity (solar self)
                     * weather_factor_default) in
  let total := h + l + b in
  let net := total - s in
  mkBalanceRow (timestamp row) h l b s total net
    (if Qle_bool net 0 then 0 else net)
    (if Qle_bool (- net) 0 then 0 else - net).

Definition balance_rows (self : BuildingEnergyManagement)
    (data : list SensorRow) (base : list Q) : list BalanceRow :=
  map (fun p => balance_row self (fst p) (snd p)) (combine data base).

Definition SensorRow_zero : SensorRow := mkSensorRow 0 0 0 0 0 0.

(** The relations between the columns of one balance row. *)
Definition balance_invariant (r : BalanceRow) : Prop :=
  total_consumption r
    == hvac_consumption r + lighting_consumption r + base_load r /\
  net_energy r == total_consumption r - solar_generation r /\
  grid_import r == Qmax (net_energy r) 0 /\
  grid_export r == Qmax (- net_energy r) 0 /\
  ~ (~ grid_import r == 0 /\ ~ grid_export r == 0).

(* ------------------------------------------------------------------ *)
(** ** Observation windows *)

(** The generator produces one row per hour and a week is [24*7] rows, so a
    table of [n] rows covers [n / 168] weeks. *)
Definition hours_per_week : Z := 24 * 7.

Definition window_weeks (energy_data : list BalanceRow) : Q :=
  inject_Z (Py.len energy_data) / inject_Z hours_per_week.

(** Scale factor weeks-per-year / weeks-in-window. *)
Definition window_extrapolation_factor (energy_data : list BalanceRow) : Q :=
  52 / window_weeks energy_data.

(** A balance row whose numeric columns are all zero. *)
Definition all_zero_row (r : BalanceRow) : Prop :=
  hvac_consumption r == 0 /\ lighting_consumption r == 0 /\
  base_load r == 0 /\ solar_generation r == 0 /\
  total_consumption r == 0 /\ net_energy r == 0 /\
  grid_import r == 0 /\ grid_export r == 0.

(** [clamp lo hi x]: [x] limited to the interval [[lo, hi]]. *)
Definition clamp (lo hi x : Q) : Q := Qmax lo (Qmin x hi).

(** The unclamped HVAC load. *)
Definition hvac_formula (set_point efficiency temp : Q) (occ : Z) (ext : Q) : Q :=
  (2 * Qabs (temp - set_point) + (1 # 10) * inject_Z occ
   + (5 # 100) * (ext - set_point)) / efficiency.

(** The HVAC system with its set-point replaced. *)
Definition with_set_point (self : HVACSystem) (sp : Q) : HVACSystem :=
  mkHVACSystem sp (hvac_efficiency self) (power_rating self) (status self).

(** Two sensor rows that agree on every column but humidity. *)
Definition same_but_humidity (r1 r2 : SensorRow) : Prop :=
  timestamp r1 = timestamp r2 /\ temperature r1 = temperature r2 /\
  light_level r1 = light_level r2 /\
  energy_consumption_kw r1 = energy_consumption_kw r2 /\
  occupancy r1 = occupancy r2.

(* ------------------------------------------------------------------ *)
(** ** Sample inputs *)

Module Sample.

(** A balance row importing [total - sol] from the grid, or exporting the
    surplus, for given loads; the derived columns are filled as the
    aggregator fills them. *)
Definition row (ts : Z) (h l b sol : Q) : BalanceRow :=
  let total := h + l + b in
  let net := total - sol in
  mkBalanceRow ts h l b sol total net
    (if Qle_bool net 0 then 0 else net)
    (if Qle_bool (- net) 0 then 0 else - net).

(** Two weeks of hourly rows: 236 hours drawing 60 kW from the grid, then
    100 hours feeding 30 kW back. *)
Definition two_weeks : list BalanceRow :=
  map (fun k => if (k <? 236)%Z then row (timedelta_hours k) 50 4 6 0
                else row (timedelta_hours k) 50 4 6 90)
      (Py.range 336).

(** One week of hourly rows consuming 20,000 kWh in total. *)
Definition week_20000 : list BalanceRow :=
  map (fun k => if (k <? 160)%Z then row (timedelta_hours k) 50 4 66 0
                else row (timedelta_hours k) 50 0 50 0)
      (Py.range 168).

(** One week of hourly rows importing 500 kWh and exporting 100 kWh. *)
Definition week_500_100 : list BalanceRow :=
  map (fun k => if (k <? 100)%Z then row (timedelta_hours k) 2 0 3 0
                else if (k <? 150)%Z then row (timedelta_hours k) 2 0 3 7
                else row (timedelta_hours k) 2 0 3 5)
      (Py.range 168).

(** A rational stand-in for [np.pi], and for [np.sin] the rational
    approximation 16 y (pi - y) / (5 pi^2 - 4 y (pi - y)) on [0, pi],
    extended by sin (y + pi) = - sin y and by periodicity. *)
Definition pi : Q := 355 # 113.

Definition half_wave (y : Q) : Q :=
  16 * y * (pi - y) / (5 * pi * pi - 4 * y * (pi - y)).

Definition sin (x : Q) : Q :=
  let y := x - 2 * pi * inject_Z (Qfloor (x / (2 * pi))) in
  if Qle_bool y pi then half_wave y else - half_wave (y - pi).

(** A clock that advances one microsecond between two readings. *)
Definition now (k : nat) : Z := (1793786400000000 + Z.of_nat k)%Z.

(** A generator whose every normal deviate is three standard deviations
    below the mean and whose every Poisson count is 2. *)
Definition low_draws : RandomState :=
  mkRandomState (fun _ => - (3)) (fun _ => 2%nat) 0.

(** A generator whose every normal deviate is 0 and every count 0. *)
Definition mean_draws : RandomState :=
  mkRandomState (fun _ => 0) (fun _ => 0%nat) 0.

Definition sensor_row (ts : Z) (temp hum light : Q) (occ : Z) : SensorRow :=
  mkSensorRow ts temp hum light 2 occ.

End Sample.

(** A sensor row with its humidity reading blanked. *)
Definition erase_humidity (r : SensorRow) : SensorRow :=
  mkSensorRow (timestamp r) (temperature r) 0 (light_level r)
    (energy_consumption_kw r) (occupancy r).

(** What [optimize_settings] records for one forecast row. *)
Definition recommendation_for (self : HVACSystem) (row : SensorRow)
    (rec : Recommendation) : Prop :=
  r_timestamp rec = timestamp row /\
  (occupancy row = 0%Z -> recommended_temp rec = target_temp self + 2) /\
  (occupancy row <> 0%Z -> recommended_temp rec = target_temp self) /\
  predicted_load rec
  = calculate_load self (temperature row) (occupancy row) external_temp_default.

(* ------------------------------------------------------------------ *)
(** ** The generator, column by column *)

Section GeneratorColumns.

Variable np_pi : Q.
Variable np_sin : Q -> Q.
Variable datetime_now : nat -> Z.

(** The column of timestamps built by [generate_realistic_data]. *)
Definition generated_timestamps (hours : Z) : list Z :=
  map (fun ki => (datetime_now (fst ki) - timedelta_hours (snd ki))%Z)
      (Py.enumerate (Py.range_down hours)).

(** The expression for one entry of the light column. *)
Definition light_entry (i : Z) : M Q :=
  if (i mod 24 <? 12)%Z
  then n <- np.random_normal 0 50 ;;
       ret (Py.max 0 (800 * np_sin (np_pi * inject_Z i / 12) + n))
  else np.random_normal 10 5.

(** The expression for one entry of the occupancy column. *)
Definition occupancy_entry (i : Z) : M Z :=
  if ((8 <=? i mod 24) && (i mod 24 <=? 18))%Z
  then ret (Z.max 0 (Py.int (20 * np_sin (np_pi * inject_Z (i mod 24) / 12))))
  else np.random_poisson 2.

End GeneratorColumns.

(* ------------------------------------------------------------------ *)
(** ** class DigitalTwin *)

(** A row of the combined table: the sensor columns followed by the balance
    columns that share its timestamp. *)
Definition CombinedRow : Type := (SensorRow * BalanceRow)%type.

(** [pd.merge(left, right, on='timestamp')]: the inner join on the key
    [timestamp].  Every left row is paired with every right row that carries
    the same timestamp; left rows are taken in order. *)
Definition merge_on_timestamp (left : list SensorRow) (right : list BalanceRow)
    : list CombinedRow :=
  flat_map
    (fun s => map (fun b => (s, b))
                (filter (fun b => (b_timestamp b =? timestamp s)%Z) right))
    left.

(** The attribute [sensors] is a [SensorData], which holds nothing that a
    method reads; [data_history] is the list that [run_simulation] appends
    to. *)
Record DigitalTwin : Type := mkDigitalTwin {
  bems : BuildingEnergyManagement;
  sustainability : SustainabilityAssessment;
  data_history : list (list CombinedRow)
}.

Definition DigitalTwin_init : DigitalTwin :=
  mkDigitalTwin BuildingEnergyManagement_init SustainabilityAssessment_init [].

Section DigitalTwinRun.

Variable np_pi : Q.
Variable np_sin : Q -> Q.
Variable datetime_now : nat -> Z.

(** [run_simulation(self, hours=24*7)].  The value is the returned triple
    together with the object after the call; what is printed is not
    modelled. *)
Definition run_simulation (self : DigitalTwin) (hours : Z)
    : M ((list CombinedRow * EcbcAssessment * CarbonAssessment) * DigitalTwin) :=
  sensor_data <- generate_realistic_data np_pi np_sin datetime_now hours ;;
  energy_data <- calculate_energy_balance (bems self) sensor_data ;;
  let combined_data := merge_on_timestamp sensor_data energy_data in
  ecbc_assessment <-
    lift (assess_ecbc_compliance (sustainability self) energy_data) ;;
  carbon_assessment <-
    lift (calculate_carbon_footprint (sustainability self) energy_data) ;;
  ret ((combined_data, ecbc_assessment, carbon_assessment),
       mkDigitalTwin (bems self) (sustainability self)
         (data_history self ++ [combined_data])).

End DigitalTwinRun.

(* ------------------------------------------------------------------ *)
(** ** Properties stated below *)

(** The generator state after [n] further draws. *)
Definition advance_by (n : nat) (st : RandomState) : RandomState :=
  mkRandomState (std_normal st) (poisson_count st) (cursor st + n).

(** Solar output as a function of the light level: nothing at or below
    0 lux, linear up to 10,000 lux, the derated capacity above. *)
Definition solar_curve (cap wf light g : Q) : Prop :=
  (light <= 0 -> g == 0) /\
  (0 <= light <= 10000 -> g == light / 10000 * cap * wf) /\
  (10000 <= light -> g == cap * wf).

(** The grid exchange of one balance row. *)
Definition grid_exchange (r : BalanceRow) : Prop :=
  0 <= grid_import r /\ 0 <= grid_export r /\
  grid_import r - grid_export r == net_energy r /\
  total_consumption r + grid_export r == solar_generation r + grid_import r.

(** Ranges of the columns of a balance row under the default equipment. *)
Definition default_ranges (r : BalanceRow) : Prop :=
  0 < hvac_consumption r <= 50 /\
  0 <= lighting_consumption r /\
  0 <= solar_generation r <= 90 /\
  0 <= grid_import r /\ 0 <= grid_export r.

(* ------------------------------------------------------------------ *)
(** ** Where the calls complete *)

(** The range of [datetime]: 0001-01-01 00:00:00 to
    9999-12-31 23:59:59.999999, in microseconds since 1970-01-01.  Arithmetic
    on a [datetime] that leaves this range raises [OverflowError]. *)
Definition datetime_min : Z := -62135596800000000.
Definition datetime_max : Z := 253402300799999999.

Definition datetime_valid (t : Z) : bool :=
  ((datetime_min <=? t) && (t <=? datetime_max))%Z.

(** Every reading of the clock and every timestamp
    [datetime.now() - timedelta(hours=i)] that [generate_realistic_data]
    computes for the horizon [hours] is in the range of [datetime]. *)
Definition timestamps_representable (datetime_now : nat -> Z) (hours : Z)
    : bool :=
  forallb
    (fun k => datetime_valid (datetime_now k)
              && datetime_valid
                   (datetime_now k - timedelta_hours (hours - Z.of_nat k))%Z)
    (seq 0 (Z.to_nat hours)).

(** The two divisors of the load models, [efficiency] in [calculate_load]
    and [daylight_threshold] in [calculate_lighting_need], are not zero;
    dividing by zero raises [ZeroDivisionError]. *)
Definition divisors_nonzero (self : BuildingEnergyManagement) : Prop :=
  ~ hvac_efficiency (hvac self) == 0 /\
  ~ daylight_threshold (lighting self) == 0.

(* ------------------------------------------------------------------ *)
(** ** Facts about the primitives *)

Lemma py_max_spec (a b : Q) : Py.max a b == Qmax a b.
Proof.
  unfold Py.max. destruct (Qle_bool b a) eqn:E.
  - apply Qle_bool_iff in E. symmetry. apply Q.max_l. exact E.
  - symmetry. apply Q.max_r.
    destruct (Qlt_le_dec a b) as [H | H]; [apply Qlt_le_weak; exact H |].
    apply Qle_bool_iff in H. congruence.
Qed.

Lemma py_min_spec (a b : Q) : Py.min a b == Qmin a b.
Proof.
  unfold Py.min. destruct (Qle_bool a b) eqn:E.
  - apply Qle_bool_iff in E. symmetry. apply Q.min_l. exact E.
  - symmetry. apply Q.min_r.
    destruct (Qlt_le_dec b a) as [H | H]; [apply Qlt_le_weak; exact H |].
    apply Qle_bool_iff in H. congruence.
Qed.

Lemma py_max_nonneg (x : Q) : 0 <= Py.max 0 x.
Proof.
  unfold Py.max. destruct (Qle_bool x 0) eqn:E; [apply Qle_refl |].
  destruct (Qlt_le_dec 0 x) as [H | H]; [apply Qlt_le_weak; exact H |].
  apply Qle_bool_iff in H. congruence.
Qed.

Lemma py_min_le_r (a b : Q) : Py.min a b <= b.
Proof.
  unfold Py.min. destruct (Qle_bool a b) eqn:E.
  - apply Qle_bool_iff. exact E.
  - apply Qle_refl.
Qed.

Lemma range_length (n : Z) : length (Py.range n) = Z.to_nat n.
Proof. unfold Py.range. now rewrite length_map, length_seq. Qed.

Lemma range_down_length (n : Z) : length (Py.range_down n) = Z.to_nat n.
Proof. unfold Py.range_down. now rewrite length_map, length_seq. Qed.

Lemma range_len {A} (l : list A) : length (Py.range (Py.len l)) = length l.
Proof. rewrite range_length. unfold Py.len. apply Nat2Z.id. Qed.

Lemma sum_shift (l : list Q) (a : Q) : fold_left Qplus l a == a + Py.sum l.
Proof.
  unfold Py.sum. revert a.
  induction l as [| x l IH]; intros a; simpl.
  - ring.
  - rewrite (IH (a + x)), (IH (0 + x)). ring.
Qed.

Lemma sum_cons (x : Q) (l : list Q) : Py.sum (x :: l) == x + Py.sum l.
Proof. unfold Py.sum at 1. simpl. rewrite sum_shift. ring. Qed.

Lemma sum_all_zero (l : list Q) : Forall (fun x => x == 0) l -> Py.sum l == 0.
Proof.
  induction 1 as [| x l Hx _ IH]; [reflexivity |].
  rewrite sum_cons, Hx, IH. ring.
Qed.

Lemma bind_returned {A B} (m : M A) (k : A -> M B) st a st' :
  m st = Returned (a, st') -> bind m k st = k a st'.
Proof. intros H. unfold bind. now rewrite H. Qed.

Lemma bind_lift_returned {A B} (a : A) (k : A -> M B) st :
  bind (lift (Returned a)) k st = k a st.
Proof. reflexivity. Qed.

(** A comprehension whose body always returns, returns, with one entry per
    element. *)
Lemma comprehension_total {A B} (f : A -> M B) (xs : list A) :
  (forall x st, In x xs -> exists y st', f x st = Returned (y, st')) ->
  forall st, exists ys st',
    comprehension f xs st = Returned (ys, st') /\ length ys = length xs.
Proof.
  induction xs as [| x xs IH]; intros Hf st; simpl.
  - exists [], st. split; reflexivity.
  - destruct (Hf x st (or_introl eq_refl)) as (y & st1 & Hy).
    destruct (IH (fun x' s H => Hf x' s (or_intror H)) st1) as (ys & st2 & Hys & Hlen).
    exists (y :: ys), st2. unfold bind. rewrite Hy, Hys. simpl.
    split; [reflexivity | now rewrite Hlen].
Qed.

(** Every entry of a comprehension is a value its body returned. *)
Lemma comprehension_Forall2 {A B} (f : A -> M B) (xs : list A) :
  forall st ys st',
    comprehension f xs st = Returned (ys, st') ->
    Forall2 (fun x y => exists s s', f x s = Returned (y, s')) xs ys.
Proof.
  induction xs as [| x xs IH]; intros st ys st' H; simpl in H.
  - inversion H; subst. constructor.
  - unfold bind in H.
    destruct (f x st) as [[y st1] | e] eqn:Hy; [| discriminate].
    destruct (comprehension f xs st1) as [[ys1 st2] | e] eqn:Hys; [| discriminate].
    inversion H; subst. constructor; eauto.
Qed.

(** A comprehension whose body returns in every state satisfying an
    invariant that its draws preserve, returns; the invariant holds at the end
    and every entry is a value the body returned in such a state. *)
Lemma comprehension_spec {A B} (I : RandomState -> Prop) (f : A -> M B)
    (xs : list A) :
  (forall x s, I s -> exists y s', f x s = Returned (y, s') /\ I s') ->
  forall st, I st ->
  exists ys st',
    comprehension f xs st = Returned (ys, st') /\
    length ys = length xs /\ I st' /\
    Forall2 (fun x y => exists s s', I s /\ f x s = Returned (y, s')) xs ys.
Proof.
  intros Hf. induction xs as [| x xs IH]; intros st Hst; simpl.
  - exists [], st. repeat split; [exact Hst | constructor].
  - destruct (Hf x st Hst) as (y & st1 & Hy & Hst1).
    destruct (IH st1 Hst1) as (ys & st2 & Hys & Hlen & Hst2 & Hall).
    exists (y :: ys), st2. unfold bind. rewrite Hy, Hys. simpl.
    split; [reflexivity |]. split; [now rewrite Hlen |].
    split; [exact Hst2 |]. constructor; [| exact Hall].
    exists st, st1. split; assumption.
Qed.

Lemma zip_with_length (op : Q -> Q -> Q) (a b : list Q) :
  length a = length b -> length (np.zip_with op a b) = length a.
Proof.
  revert b. induction a as [| x a IH]; intros [| y b] H; simpl in *;
    try discriminate; [reflexivity |].
  f_equal. apply IH. lia.
Qed.

Lemma zip_with_nth (op : Q -> Q -> Q) (a b : list Q) (i : nat) :
  length a = length b -> (i < length a)%nat ->
  nth i (np.zip_with op a b) 0 = op (nth i a 0) (nth i b 0).
Proof.
  revert b i. induction a as [| x a IH]; intros [| y b] i H Hi; simpl in *;
    try discriminate; try lia.
  destruct i as [| i]; [reflexivity |]. apply IH; lia.
Qed.

Lemma binop_same_length (op : Q -> Q -> Q) (a b : list Q) :
  length a = length b -> np.binop op a b = Returned (np.zip_with op a b).
Proof. intros H. unfold np.binop. now rewrite H, Nat.eqb_refl. Qed.

Lemma nth_map_in {A B} (f : A -> B) (l : list A) (i : nat) (d : A) (e : B) :
  (i < length l)%nat -> nth i (map f l) e = f (nth i l d).
Proof.
  revert i. induction l as [| x l IH]; intros i Hi; simpl in *; [lia |].
  destruct i as [| i]; [reflexivity |]. apply IH. lia.
Qed.

Lemma maximum_nth (a : list Q) (s : Q) (i : nat) :
  (i < length a)%nat ->
  nth i (np.maximum a s) 0 = if Qle_bool (nth i a 0) s then s else nth i a 0.
Proof. intros Hi. unfold np.maximum. now rewrite (nth_map_in _ a i 0). Qed.

Lemma neg_nth (a : list Q) (i : nat) :
  (i < length a)%nat -> nth i (np.neg a) 0 = - nth i a 0.
Proof. intros Hi. unfold np.neg. now rewrite (nth_map_in _ a i 0). Qed.

Lemma maximum_length (a : list Q) (s : Q) : length (np.maximum a s) = length a.
Proof. apply length_map. Qed.

Lemma neg_length (a : list Q) : length (np.neg a) = length a.
Proof. apply length_map. Qed.

(* ------------------------------------------------------------------ *)
(** ** The aggregator, row by row *)


Lemma combine_by_index {A B} (a : list A) (b : list B) (da : A) (db : B) :
  length a = length b ->
  combine a b = map (fun i => (nth i a da, nth i b db)) (seq 0 (length a)).
Proof.
  revert b. induction a as [| x a IH]; intros [| y b] H; simpl in *;
    try discriminate; [reflexivity |].
  f_equal. rewrite <- seq_shift, map_map. apply IH. lia.
Qed.

Lemma base_load_returns (n : Z) (st : RandomState) :
  exists base st',
    comprehension (fun _ : Z => x <- np.random_normal 0 (2 # 10) ;; ret (3 + x))
      (Py.range n) st = Returned (base, st')
    /\ length base = Z.to_nat n.
Proof.
  destruct (comprehension_total
              (fun _ : Z => x <- np.random_normal 0 (2 # 10) ;; ret (3 + x))
              (Py.range n)) with (st := st) as (base & st' & H & Hlen).
  - intros x s _. eexists. eexists. reflexivity.
  - exists base, st'. split; [exact H |]. now rewrite Hlen, range_length.
Qed.

(** Once the base-load column is drawn, the table of the aggregator is the
    row-wise transform of the sensor table by [balance_row]. *)
Lemma calculate_energy_balance_from_base (self : BuildingEnergyManagement)
    (data : list SensorRow) (st st' : RandomState) (base : list Q) :
  comprehension (fun _ : Z => x <- np.random_normal 0 (2 # 10) ;; ret (3 + x))
    (Py.range (Py.len data)) st = Returned (base, st') ->
  length base = length data ->
  calculate_energy_balance self data st
  = Returned (balance_rows self data base, st').
Proof.
  intros Hbase Hlen.
  unfold calculate_energy_balance. cbv zeta.
  rewrite (bind_returned _ _ _ _ _ Hbase).
  unfold energy_consumption, calculate_generation, np.add, np.sub.
  set (hv := map _ data).
  set (li := map (fun row => calculate_lighting_need _ _ _) data).
  set (so := map _ (map light_level data)).
  assert (Hhv : length hv = length data) by (subst hv; apply length_map).
  assert (Hli : length li = length data) by (subst li; apply length_map).
  assert (Hso : length so = length data)
    by (subst so; now rewrite !length_map).
  rewrite binop_same_length, bind_lift_returned by congruence.
  assert (Hhl : length (np.zip_with Qplus hv li) = length data)
    by (rewrite zip_with_length; congruence).
  rewrite binop_same_length, bind_lift_returned by congruence.
  set (total := np.zip_with Qplus (np.zip_with Qplus hv li) base).
  assert (Htot : length total = length data)
    by (subst total; rewrite zip_with_length; congruence).
  rewrite binop_same_length, bind_lift_returned by congruence.
  set (net := np.zip_with Qminus total so).
  assert (Hnet : length net = length data)
    by (subst net; rewrite zip_with_length; congruence).
  unfold lift, pd.DataFrame_balance, pd.all_len.
  simpl forallb. rewrite !maximum_length, neg_length, length_map.
  rewrite Hhv, Hli, Hlen, Hso, Htot, Hnet, Nat.eqb_refl. simpl andb.
  unfold balance_rows.
  rewrite (combine_by_index data base SensorRow_zero 0) by congruence.
  apply (f_equal (fun rows => Returned (rows, st'))).
  rewrite (map_map (fun i => (nth i data SensorRow_zero, nth i base 0))).
  apply map_ext_in. intros i Hi. apply in_seq in Hi.
  simpl fst. simpl snd.
  rewrite !maximum_nth, neg_nth by (rewrite ?neg_length; lia).
  subst net. rewrite zip_with_nth by lia.
  subst total. rewrite !zip_with_nth by lia.
  subst hv li so.
  rewrite (nth_map_in timestamp data i SensorRow_zero) by lia.
  rewrite (nth_map_in _ data i SensorRow_zero) by lia.
  rewrite (nth_map_in _ data i SensorRow_zero) by lia.
  rewrite (nth_map_in _ (map light_level data) i 0)
    by (rewrite length_map; lia).
  rewrite (nth_map_in light_level data i SensorRow_zero) by lia.
  reflexivity.
Qed.

(** The aggregator always returns, and its table is the row-wise transform of
    the sensor table by [balance_row], one base-load draw per row. *)
Lemma calculate_energy_balance_rowwise (self : BuildingEnergyManagement)
    (data : list SensorRow) (st : RandomState) :
  exists base st',
    length base = length data /\
    calculate_energy_balance self data st
    = Returned (balance_rows self data base, st').
Proof.
  destruct (base_load_returns (Py.len data) st) as (base & st' & Hbase & Hlen).
  unfold Py.len in Hlen. rewrite Nat2Z.id in Hlen.
  exists base, st'. split; [exact Hlen |].
  now apply calculate_energy_balance_from_base.
Qed.

Lemma balance_rows_length self data base :
  length base = length data -> length (balance_rows self data base) = length data.
Proof.
  intros H. unfold balance_rows. rewrite length_map, length_combine. lia.
Qed.

Lemma maximum_scalar_spec (x s : Q) :
  (if Qle_bool x s then s else x) == Qmax x s.
Proof.
  destruct (Qle_bool x s) eqn:E.
  - apply Qle_bool_iff in E. symmetry. apply Q.max_r. exact E.
  - symmetry. apply Q.max_l.
    destruct (Qlt_le_dec s x) as [H | H]; [apply Qlt_le_weak; exact H |].
    apply Qle_bool_iff in H. congruence.
Qed.

(* ------------------------------------------------------------------ *)
(** ** Energy balance records *)


Lemma balance_row_invariant self row b : balance_invariant (balance_row self row b).
Proof.
  unfold balance_invariant, balance_row. cbv zeta.
  cbn [total_consumption hvac_consumption lighting_consumption base_load
       solar_generation net_energy grid_import grid_export].
  set (net := _ - _).
  repeat split; try reflexivity.
  - apply maximum_scalar_spec.
  - apply maximum_scalar_spec.
  - intros [Hi He].
    destruct (Qle_bool net 0) eqn:E1; [apply Hi; reflexivity |].
    destruct (Qle_bool (- net) 0) eqn:E2; [apply He; reflexivity |].
    destruct (Qlt_le_dec 0 net) as [H | H].
    + assert (H' : - net <= 0) by lra. apply Qle_bool_iff in H'. congruence.
    + apply Qle_bool_iff in H. congruence.
Qed.

(** The aggregator returns a table as long as its input. *)
Lemma calculate_energy_balance_returns (self : BuildingEnergyManagement)
    (sensor_data : list SensorRow) (st : RandomState) :
  exists frame st',
    calculate_energy_balance self sensor_data st = Returned (frame, st') /\
    length frame = length sensor_data.
Proof.
  destruct (calculate_energy_balance_rowwise self sensor_data st)
    as (base & st' & Hlen & Hrun).
  exists (balance_rows self sensor_data base), st'.
  split; [exact Hrun | now apply balance_rows_length].
Qed.

(** C1.  [calculate_energy_balance] returns one balance row per sensor row,
    and on every row total_consumption = hvac + lighting + base load,
    net_energy = total_consumption - solar generation,
    grid_import = max(net_energy, 0), grid_export = max(-net_energy, 0), and
    grid_import and grid_export are not both nonzero. *)
Theorem energy_balance_invariants (self : BuildingEnergyManagement)
    (sensor_data : list SensorRow) (st : RandomState) :
  exists frame st',
    calculate_energy_balance self sensor_data st = Returned (frame, st') /\
    length frame = length sensor_data /\
    Forall balance_invariant frame.
Proof.
  destruct (calculate_energy_balance_rowwise self sensor_data st)
    as (base & st' & Hlen & Hrun).
  exists (balance_rows self sensor_data base), st'.
  split; [exact Hrun |]. split; [now apply balance_rows_length |].
  apply Forall_forall. intros r Hr. unfold balance_rows in Hr.
  apply in_map_iff in Hr. destruct Hr as ([row b] & <- & _).
  apply balance_row_invariant.
Qed.

(* ------------------------------------------------------------------ *)
(** ** Compliance assessment *)

Lemma py_max0_zero (x : Q) : x <= 0 -> Py.max 0 x == 0.
Proof.
  intros H. unfold Py.max. apply Qle_bool_iff in H. now rewrite H.
Qed.

Lemma py_max0_pos (x : Q) : 0 <= x -> Py.max 0 x == x.
Proof.
  intros H. rewrite py_max_spec. apply Q.max_r. exact H.
Qed.

(** C2 (amended).  The compliance assessment returns
    annual_consumption = (sum of total_consumption) x 52 whatever the length
    of the window, energy_performance_index = annual_consumption / A,
    is_compliant exactly when the index <= L, and
    required_savings = max(0, index - L) x A.  The factor 52 is 52 / w for a
    window of one week (168 hourly rows).  For a total of 20,000 kWh,
    A = 5000 and L = 200 the result is 1,040,000 kWh, index 208,
    not compliant, 40,000 kWh of savings. *)
Theorem ecbc_compliance_fixed_factor (self : SustainabilityAssessment)
    (energy_data : list BalanceRow) :
  0 < building_area self ->
  exists r,
    assess_ecbc_compliance self energy_data = Returned r /\
    annual_consumption_kwh r
      == Py.sum (map total_consumption energy_data) * 52 /\
    epi_kwh_m2_year r == annual_consumption_kwh r / building_area self /\
    ecbc_limit r = ecbc_epi_limit self /\
    (compliance r = true <-> epi_kwh_m2_year r <= ecbc_epi_limit self) /\
    savings_potential r
      == Qmax 0 (epi_kwh_m2_year r - ecbc_epi_limit self) * building_area self /\
    (Py.len energy_data = hours_per_week ->
     annual_consumption_kwh r
       == Py.sum (map total_consumption energy_data)
          * window_extrapolation_factor energy_data) /\
    (Py.sum (map total_consumption energy_data) == 20000 ->
     building_area self == 5000 -> ecbc_epi_limit self == 200 ->
     annual_consumption_kwh r == 1040000 /\ epi_kwh_m2_year r == 208 /\
     compliance r = false /\ savings_potential r == 40000).
Proof.
  intros HA. eexists. split; [reflexivity |]. simpl.
  unfold calculate_epi.
  set (total := Py.sum (map total_consumption energy_data)).
  split; [reflexivity |]. split; [reflexivity |]. split; [reflexivity |].
  split; [apply Qle_bool_iff |].
  split; [now rewrite py_max_spec |].
  split.
  - intros Hlen. unfold window_extrapolation_factor, window_weeks.
    rewrite Hlen. field. discriminate.
  - intros Hsum Harea Hlim.
    assert (Hepi : total * 52 / building_area self == 208).
    { rewrite Hsum, Harea. reflexivity. }
    split; [rewrite Hsum; reflexivity |].
    split; [exact Hepi |].
    split.
    + rewrite Hepi, Hlim. reflexivity.
    + rewrite py_max0_pos by (rewrite Hepi, Hlim; discriminate).
      rewrite Hepi, Hlim, Harea. reflexivity.
Qed.

Lemma ecbc_compliance_fixed_factor_witness :
  exists r,
    assess_ecbc_compliance SustainabilityAssessment_init Sample.week_20000
      = Returned r /\
    annual_consumption_kwh r == 1040000 /\ epi_kwh_m2_year r == 208 /\
    compliance r = false /\ savings_potential r == 40000.
Proof.
  destruct (ecbc_compliance_fixed_factor SustainabilityAssessment_init
              Sample.week_20000 eq_refl)
    as (r & Hr & _ & _ & _ & _ & _ & _ & Hscenario).
  exists r. split; [exact Hr |].
  apply Hscenario; vm_compute; reflexivity.
Defined.

(** C2 as stated fails on a window of two weeks: the assessment scales the
    total by 52, not by 52 / 2. *)
Lemma ecbc_two_week_window_not_rescaled :
  window_weeks Sample.two_weeks == 2 /\
  exists r,
    assess_ecbc_compliance SustainabilityAssessment_init Sample.two_weeks
      = Returned r /\
    annual_consumption_kwh r == 1048320 /\
    ~ annual_consumption_kwh r
        == Py.sum (map total_consumption Sample.two_weeks)
           * (52 / window_weeks Sample.two_weeks).
Proof.
  split; [vm_compute; reflexivity |].
  eexists. split; [reflexivity |]. split; vm_compute; [reflexivity | discriminate].
Qed.

(* ------------------------------------------------------------------ *)
(** ** Carbon assessment *)

(** C4 (amended).  The carbon assessment returns
    gross_emissions = (sum of grid_import) x f,
    carbon_offset = (sum of grid_export) x f,
    net_emissions = gross_emissions - carbon_offset, and annualized net
    emissions = net_emissions x 52 / 1000, in tonnes, with the fixed factor
    52 of the compliance assessment whatever the length of the window.  For
    imports of 500 kWh, exports of 100 kWh and f = 0.82 it returns 410 kg,
    82 kg and 328 kg. *)
Theorem carbon_footprint_fixed_factor (self : SustainabilityAssessment)
    (energy_data : list BalanceRow) :
  exists c,
    calculate_carbon_footprint self energy_data = Returned c /\
    gross_emissions_kg_co2 c
      == Py.sum (map grid_import energy_data) * emission_factor self /\
    carbon_offset_kg_co2 c
      == Py.sum (map grid_export energy_data) * emission_factor self /\
    net_emissions_kg_co2 c
      == gross_emissions_kg_co2 c - carbon_offset_kg_co2 c /\
    annual_net_emissions_tonnes c == net_emissions_kg_co2 c * 52 / 1000 /\
    (Py.sum (map grid_import energy_data) == 500 ->
     Py.sum (map grid_export energy_data) == 100 ->
     emission_factor self == 82 # 100 ->
     gross_emissions_kg_co2 c == 410 /\ carbon_offset_kg_co2 c == 82 /\
     net_emissions_kg_co2 c == 328).
Proof.
  eexists. split; [reflexivity |]. simpl.
  repeat (split; [reflexivity |]).
  intros Himp Hexp Hf. rewrite Himp, Hexp, Hf.
  repeat split; reflexivity.
Qed.

Lemma carbon_footprint_fixed_factor_witness :
  exists c,
    calculate_carbon_footprint SustainabilityAssessment_init Sample.week_500_100
      = Returned c /\
    gross_emissions_kg_co2 c == 410 /\ carbon_offset_kg_co2 c == 82 /\
    net_emissions_kg_co2 c == 328.
Proof.
  destruct (carbon_footprint_fixed_factor SustainabilityAssessment_init
              Sample.week_500_100)
    as (c & Hc & _ & _ & _ & _ & Hscenario).
  exists c. split; [exact Hc |].
  apply Hscenario; vm_compute; reflexivity.
Defined.

(** C4 as stated fails on a window of two weeks: the annualized figure is
    net_emissions x 52 / 1000, which is neither net_emissions x (52 / 2) nor
    that quantity converted to tonnes. *)
Lemma carbon_two_week_window_not_rescaled :
  window_weeks Sample.two_weeks == 2 /\
  exists c,
    calculate_carbon_footprint SustainabilityAssessment_init Sample.two_weeks
      = Returned c /\
    ~ annual_net_emissions_tonnes c
        == net_emissions_kg_co2 c * (52 / window_weeks Sample.two_weeks) /\
    ~ annual_net_emissions_tonnes c
        == net_emissions_kg_co2 c * (52 / window_weeks Sample.two_weeks) / 1000.
Proof.
  split; [vm_compute; reflexivity |].
  eexists. split; [reflexivity |]. split; vm_compute; discriminate.
Qed.

(* ------------------------------------------------------------------ *)
(** ** Degenerate record sets *)

Lemma sum_column_zero (col : BalanceRow -> Q) (energy_data : list BalanceRow) :
  Forall (fun r => col r == 0) energy_data ->
  Py.sum (map col energy_data) == 0.
Proof.
  intros H. apply sum_all_zero. apply Forall_map. exact H.
Qed.

Lemma all_zero_column (energy_data : list BalanceRow)
    (col : BalanceRow -> Q) :
  (forall r, all_zero_row r -> col r == 0) ->
  Forall all_zero_row energy_data -> Forall (fun r => col r == 0) energy_data.
Proof. intros Hcol H. eapply Forall_impl; [| exact H]. exact Hcol. Qed.

(** C3 (amended).  With a positive building area the assessor never signals
    an error.  On an empty or all-zero balance-record set the compliance
    assessment returns an annual consumption of 0, an index of 0, the verdict
    compliant and no required savings, and the carbon assessment returns zero
    emissions; and for every series of length 1 the aggregator, with a
    nonzero efficiency and daylight threshold, and both assessments return. *)
Theorem assessor_returns_on_degenerate_input (self : SustainabilityAssessment) :
  0 < building_area self -> 0 <= ecbc_epi_limit self ->
  (forall energy_data,
     exists r c,
       assess_ecbc_compliance self energy_data = Returned r /\
       calculate_carbon_footprint self energy_data = Returned c /\
       (Forall all_zero_row energy_data ->
        annual_consumption_kwh r == 0 /\ epi_kwh_m2_year r == 0 /\
        compliance r = true /\ savings_potential r == 0 /\
        gross_emissions_kg_co2 c == 0 /\ carbon_offset_kg_co2 c == 0 /\
        net_emissions_kg_co2 c == 0 /\ annual_net_emissions_tonnes c == 0))
  /\
  (forall bems row st,
     divisors_nonzero bems ->
     exists frame st' r c,
       calculate_energy_balance bems [row] st = Returned (frame, st') /\
       length frame = 1%nat /\
       assess_ecbc_compliance self frame = Returned r /\
       calculate_carbon_footprint self frame = Returned c).
Proof.
  intros HA HL. split.
  - intros energy_data. eexists. eexists.
    split; [reflexivity |]. split; [reflexivity |].
    intros Hzero. simpl. unfold calculate_epi.
    assert (Ht : Py.sum (map total_consumption energy_data) == 0).
    { apply sum_column_zero, all_zero_column; [| exact Hzero].
      intros r Hr. apply Hr. }
    assert (Hi : Py.sum (map grid_import energy_data) == 0).
    { apply sum_column_zero, all_zero_column; [| exact Hzero].
      intros r Hr. apply Hr. }
    assert (He : Py.sum (map grid_export energy_data) == 0).
    { apply sum_column_zero, all_zero_column; [| exact Hzero].
      intros r Hr. apply Hr. }
    assert (Hepi : Py.sum (map total_consumption energy_data) * 52
                   / building_area self == 0).
    { rewrite Ht. field. intros H0. rewrite H0 in HA. discriminate. }
    split; [rewrite Ht; reflexivity |].
    split; [exact Hepi |].
    split; [apply Qle_bool_iff; rewrite Hepi; exact HL |].
    split.
    { rewrite py_max0_zero; [ring | rewrite Hepi; lra]. }
    rewrite Hi, He. repeat split; reflexivity.
  - intros bems row st _.
    destruct (calculate_energy_balance_returns bems [row] st)
      as (frame & st' & Hrun & Hlen).
    exists frame, st'. eexists. eexists.
    split; [exact Hrun |]. split; [exact Hlen |].
    split; reflexivity.
Qed.

Lemma assessor_returns_on_degenerate_input_witness :
  (exists r c,
     assess_ecbc_compliance SustainabilityAssessment_init [] = Returned r /\
     calculate_carbon_footprint SustainabilityAssessment_init [] = Returned c /\
     annual_consumption_kwh r == 0 /\ compliance r = true /\
     net_emissions_kg_co2 c == 0) /\
  (exists frame st' r c,
     calculate_energy_balance BuildingEnergyManagement_init
       [Sample.sensor_row 0 26 55 150 5] Sample.mean_draws
     = Returned (frame, st') /\
     length frame = 1%nat /\
     assess_ecbc_compliance SustainabilityAssessment_init frame = Returned r /\
     calculate_carbon_footprint SustainabilityAssessment_init frame = Returned c).
Proof.
  assert (HL : 0 <= ecbc_epi_limit SustainabilityAssessment_init)
    by discriminate.
  destruct (assessor_returns_on_degenerate_input
              SustainabilityAssessment_init eq_refl HL) as [Hany Hone].
  split.
  - destruct (Hany []) as (r & c & Hr & Hc & Hzero).
    destruct (Hzero (Forall_nil _))
      as (Hannual & _ & Hverdict & _ & _ & _ & Hnet & _).
    exists r, c. repeat split; assumption.
  - apply Hone. split; intros H; vm_compute in H; discriminate H.
Defined.

(** C3 as stated fails on the empty record set: both assessments return, and
    the compliance verdict is compliant. *)
Lemma empty_window_judged_compliant :
  ~ raises (assess_ecbc_compliance SustainabilityAssessment_init []) /\
  ~ raises (calculate_carbon_footprint SustainabilityAssessment_init []) /\
  exists r,
    assess_ecbc_compliance SustainabilityAssessment_init [] = Returned r /\
    compliance r = true.
Proof.
  split; [intros [e He]; discriminate |].
  split; [intros [e He]; discriminate |].
  eexists. split; reflexivity.
Qed.

(* ------------------------------------------------------------------ *)
(** ** HVAC load *)

Lemma calculate_load_formula (self : HVACSystem) (t : Q) (occ : Z) (ext : Q) :
  calculate_load self t occ ext
  == Qmin (hvac_formula (target_temp self) (hvac_efficiency self) t occ ext)
          (power_rating self).
Proof.
  unfold calculate_load. cbv zeta. rewrite py_min_spec.
  apply Q.min_compat; [| reflexivity].
  unfold hvac_formula, Py.abs, Qdiv.
  apply Qmult_comp; [ring | reflexivity].
Qed.

Lemma hvac_formula_nonneg (sp eff t : Q) (occ : Z) (ext : Q) :
  0 < eff -> (0 <= occ)%Z -> sp <= ext -> 0 <= hvac_formula sp eff t occ ext.
Proof.
  intros Heff Hocc Hext. unfold hvac_formula.
  apply Qle_shift_div_l; [exact Heff |].
  assert (Habs := Qabs_nonneg (t - sp)).
  assert (Ho : 0 <= inject_Z occ).
  { unfold Qle. simpl. lia. }
  nra.
Qed.

(** C6 (amended).  For every input the HVAC load operation returns the
    smaller of (2|temperature - set_point| + 0.1 occupancy
    + 0.05 (external_temperature - set_point)) / efficiency and rated_power,
    so the result is never above rated_power.  When occupancy >= 0 and
    external_temperature >= set_point, as at the default external temperature,
    that value is the formula clamped to [0, rated_power] and is never
    below 0. *)
Theorem calculate_load_clamped (self : HVACSystem) (t : Q) (occ : Z) (ext : Q) :
  0 < hvac_efficiency self -> 0 <= power_rating self ->
  calculate_load self t occ ext
    == Qmin (hvac_formula (target_temp self) (hvac_efficiency self) t occ ext)
            (power_rating self) /\
  calculate_load self t occ ext <= power_rating self /\
  ((0 <= occ)%Z -> target_temp self <= ext ->
   calculate_load self t occ ext
     == clamp 0 (power_rating self)
          (hvac_formula (target_temp self) (hvac_efficiency self) t occ ext) /\
   0 <= calculate_load self t occ ext).
Proof.
  intros Heff HP.
  split; [apply calculate_load_formula |].
  split; [apply py_min_le_r |].
  intros Hocc Hext.
  assert (Hf := hvac_formula_nonneg (target_temp self) (hvac_efficiency self)
                  t occ ext Heff Hocc Hext).
  assert (Hmin : 0 <= Qmin (hvac_formula (target_temp self)
                              (hvac_efficiency self) t occ ext)
                           (power_rating self))
    by (apply Q.min_glb; assumption).
  split.
  - rewrite calculate_load_formula. unfold clamp.
    symmetry. apply Q.max_r. exact Hmin.
  - rewrite calculate_load_formula. exact Hmin.
Qed.

Lemma calculate_load_clamped_witness :
  calculate_load HVACSystem_init 26 5 30
    == clamp 0 50 (hvac_formula 24 (85 # 100) 26 5 30) /\
  0 <= calculate_load HVACSystem_init 26 5 30 <= 50.
Proof.
  assert (HP : 0 <= power_rating HVACSystem_init) by discriminate.
  destruct (calculate_load_clamped HVACSystem_init 26 5 30 eq_refl HP)
    as (_ & Hle & Hclamp).
  assert (Hocc : (0 <= 5)%Z) by discriminate.
  assert (Hext : target_temp HVACSystem_init <= 30) by discriminate.
  destruct (Hclamp Hocc Hext) as [Heq Hge].
  split; [exact Heq |]. split; [exact Hge | exact Hle].
Defined.

(** C6 as stated fails for a cold exterior: the load is negative, while the
    clamped formula is 0. *)
Lemma calculate_load_negative_for_cold_exterior :
  calculate_load HVACSystem_init 24 0 (- (100)) < 0 /\
  ~ calculate_load HVACSystem_init 24 0 (- (100))
      == clamp 0 (power_rating HVACSystem_init)
           (hvac_formula (target_temp HVACSystem_init)
              (hvac_efficiency HVACSystem_init) 24 0 (- (100))).
Proof. split; vm_compute; [reflexivity | discriminate]. Qed.

(* ------------------------------------------------------------------ *)
(** ** Lighting load *)

(** C7.  For ambient_light >= 0 and occupancy >= 0 the lighting load is 0
    when occupancy is 0, 0 when ambient_light >= the daylight threshold, and
    otherwise fixtures x power_per_fixture x (1 - ambient_light / threshold). *)
Theorem calculate_lighting_need_cases (self : LightingSystem)
    (ambient_light : Q) (occ : Z) :
  0 <= ambient_light -> (0 <= occ)%Z ->
  (occ = 0%Z -> calculate_lighting_need self ambient_light occ = 0) /\
  (daylight_threshold self <= ambient_light ->
   calculate_lighting_need self ambient_light occ = 0) /\
  (occ <> 0%Z -> ambient_light < daylight_threshold self ->
   calculate_lighting_need self ambient_light occ
   == inject_Z (fixtures self) * power_per_fixture self
      * (1 - ambient_light / daylight_threshold self)).
Proof.
  intros _ _. unfold calculate_lighting_need.
  repeat split.
  - intros ->. reflexivity.
  - intros H. apply Qle_bool_iff in H. rewrite H.
    now destruct (occ =? 0)%Z.
  - intros Hocc Hlt. apply Z.eqb_neq in Hocc. rewrite Hocc.
    destruct (Qle_bool (daylight_threshold self) ambient_light) eqn:E.
    + apply Qle_bool_iff in E. lra.
    + reflexivity.
Qed.

Lemma calculate_lighting_need_cases_witness :
  calculate_lighting_need LightingSystem_init 150 0 = 0 /\
  calculate_lighting_need LightingSystem_init 300 5 = 0 /\
  calculate_lighting_need LightingSystem_init 150 5 == 2.
Proof.
  assert (H150 : 0 <= 150) by discriminate.
  assert (H300 : 0 <= 300) by discriminate.
  assert (H0 : (0 <= 0)%Z) by discriminate.
  assert (H5 : (0 <= 5)%Z) by discriminate.
  split; [| split].
  - destruct (calculate_lighting_need_cases LightingSystem_init 150 0 H150 H0)
      as (Hoff & _ & _).
    apply Hoff. reflexivity.
  - destruct (calculate_lighting_need_cases LightingSystem_init 300 5 H300 H5)
      as (_ & Hday & _).
    apply Hday. discriminate.
  - destruct (calculate_lighting_need_cases LightingSystem_init 150 5 H150 H5)
      as (_ & _ & Hdim).
    rewrite Hdim; [reflexivity | discriminate | reflexivity].
Defined.

(* ------------------------------------------------------------------ *)
(** ** HVAC recommendations *)

Lemma map_fst_combine {A B C} (f : A -> C) (a : list A) (b : list B) :
  length b = length a -> map (fun p => f (fst p)) (combine a b) = map f a.
Proof.
  revert b. induction a as [| x a IH]; intros [| y b] H; simpl in *;
    try discriminate; [reflexivity |].
  f_equal. apply IH. lia.
Qed.

Lemma hvac_column_at_nominal_set_point (self : BuildingEnergyManagement)
    (data : list SensorRow) (base : list Q) :
  length base = length data ->
  map hvac_consumption (balance_rows self data base)
  = map (fun row => calculate_load (hvac self) (temperature row)
                      (occupancy row) external_temp_default) data.
Proof.
  intros H. unfold balance_rows. rewrite map_map.
  exact (map_fst_combine
           (fun row => calculate_load (hvac self) (temperature row)
                         (occupancy row) external_temp_default) data base H).
Qed.

(** C9 (amended).  For every row of a forecast series the optimization
    recommends set_point + 2 when the row's occupancy is 0 and the nominal
    set_point otherwise, and pairs the recommendation with the load given by
    the HVAC load formula at the nominal set-point, not at the recommended
    one.  The energy balance of the same series uses the nominal set-point
    too: its HVAC column is the column of predicted loads. *)
Theorem optimize_settings_recommendations (self : BuildingEnergyManagement)
    (forecast_data : list SensorRow) (st : RandomState) :
  Forall2 (recommendation_for (hvac self)) forecast_data
    (optimize_settings (hvac self) forecast_data) /\
  exists frame st',
    calculate_energy_balance self forecast_data st = Returned (frame, st') /\
    map hvac_consumption frame
    = map predicted_load (optimize_settings (hvac self) forecast_data).
Proof.
  split.
  - unfold optimize_settings.
    induction forecast_data as [| row rows IH]; simpl; constructor; [| exact IH].
    unfold recommendation_for. simpl.
    split; [reflexivity |]. split; [| split; [| reflexivity]].
    + intros ->. reflexivity.
    + intros H. apply Z.eqb_neq in H. now rewrite H.
  - destruct (calculate_energy_balance_rowwise self forecast_data st)
      as (base & st' & Hlen & Hrun).
    exists (balance_rows self forecast_data base), st'.
    split; [exact Hrun |].
    rewrite hvac_column_at_nominal_set_point by exact Hlen.
    unfold optimize_settings. now rewrite map_map.
Qed.

Lemma optimize_settings_recommendations_witness :
  exists rec_empty rec_busy,
    optimize_settings HVACSystem_init
      [Sample.sensor_row 0 26 55 150 0;
       Sample.sensor_row 3600000000 26 55 150 5]
    = [rec_empty; rec_busy] /\
    recommended_temp rec_empty = 24 + 2 /\
    recommended_temp rec_busy = 24 /\
    predicted_load rec_empty = calculate_load HVACSystem_init 26 0 30.
Proof.
  destruct (optimize_settings_recommendations BuildingEnergyManagement_init
              [Sample.sensor_row 0 26 55 150 0;
               Sample.sensor_row 3600000000 26 55 150 5] Sample.mean_draws)
    as [Hrecs _].
  simpl in Hrecs.
  inversion Hrecs as [| r0 rec0 rs0 recs0 H0 Hrest]; subst.
  inversion Hrest as [| r1 rec1 rs1 recs1 H1 _]; subst.
  destruct H0 as (_ & Hempty & _ & Hload).
  destruct H1 as (_ & _ & Hbusy & _).
  eexists. eexists. split; [reflexivity |].
  split; [apply Hempty; reflexivity |].
  split; [apply Hbusy; discriminate | exact Hload].
Defined.

(** C9 as stated fails on an unoccupied row: the recommendation is 26, and
    the load paired with it is the load at the set-point 24, which differs
    from the load the formula gives at 26. *)
Lemma predicted_load_not_at_recommended_set_point :
  exists rec,
    optimize_settings HVACSystem_init [Sample.sensor_row 0 26 55 150 0] = [rec] /\
    recommended_temp rec == 26 /\
    ~ predicted_load rec
        == calculate_load (with_set_point HVACSystem_init (recommended_temp rec))
             26 0 external_temp_default.
Proof.
  eexists. split; [reflexivity |].
  split; vm_compute; [reflexivity | discriminate].
Qed.

(* ------------------------------------------------------------------ *)
(** ** Humidity *)

Lemma erase_humidity_agree (d1 d2 : list SensorRow) :
  Forall2 same_but_humidity d1 d2 ->
  map erase_humidity d1 = map erase_humidity d2.
Proof.
  induction 1 as [| r1 r2 l1 l2 (Ht & Hte & Hl & He & Ho) _ IH]; simpl;
    [reflexivity |].
  rewrite IH. unfold erase_humidity. now rewrite Ht, Hte, Hl, He, Ho.
Qed.

Lemma calculate_energy_balance_erase_humidity (self : BuildingEnergyManagement)
    (data : list SensorRow) :
  calculate_energy_balance self (map erase_humidity data)
  = calculate_energy_balance self data.
Proof.
  unfold calculate_energy_balance, energy_consumption, Py.len. cbv zeta.
  rewrite !map_map, length_map. reflexivity.
Qed.

(** C10.  Two sensor series that agree on every column but humidity give,
    under the same random draws, the same energy-balance table, and so the
    same compliance and carbon assessments. *)
Theorem humidity_noninterference (bems : BuildingEnergyManagement)
    (sa : SustainabilityAssessment) (d1 d2 : list SensorRow)
    (st : RandomState) :
  Forall2 same_but_humidity d1 d2 ->
  exists frame st' r c,
    calculate_energy_balance bems d1 st = Returned (frame, st') /\
    calculate_energy_balance bems d2 st = Returned (frame, st') /\
    assess_ecbc_compliance sa frame = Returned r /\
    calculate_carbon_footprint sa frame = Returned c.
Proof.
  intros H.
  destruct (calculate_energy_balance_returns bems d1 st)
    as (frame & st' & Hrun & _).
  exists frame, st'. eexists. eexists.
  split; [exact Hrun |].
  split; [| split; reflexivity].
  rewrite <- (calculate_energy_balance_erase_humidity bems d2).
  rewrite <- (erase_humidity_agree d1 d2 H).
  rewrite calculate_energy_balance_erase_humidity. exact Hrun.
Qed.

Lemma humidity_noninterference_witness :
  exists frame st',
    calculate_energy_balance BuildingEnergyManagement_init
      [Sample.sensor_row 0 26 55 150 5] Sample.mean_draws
    = Returned (frame, st') /\
    calculate_energy_balance BuildingEnergyManagement_init
      [Sample.sensor_row 0 26 90 150 5] Sample.mean_draws
    = Returned (frame, st').
Proof.
  assert (H : Forall2 same_but_humidity
                [Sample.sensor_row 0 26 55 150 5]
                [Sample.sensor_row 0 26 90 150 5]).
  { constructor; [| constructor]. repeat split. }
  destruct (humidity_noninterference BuildingEnergyManagement_init
              SustainabilityAssessment_init
              [Sample.sensor_row 0 26 55 150 5]
              [Sample.sensor_row 0 26 90 150 5] Sample.mean_draws H)
    as (frame & st' & _ & _ & H1 & H2 & _).
  exists frame, st'. split; assumption.
Defined.

(* ------------------------------------------------------------------ *)
(** ** Environment synthesizer *)

Lemma nth_error_map_seq {A} (F : nat -> A) (n i : nat) (r : A) :
  nth_error (map F (seq 0 n)) i = Some r -> (i < n)%nat /\ r = F i.
Proof.
  rewrite nth_error_map, nth_error_seq.
  destruct (Nat.ltb_spec i n) as [Hlt | Hge]; simpl; [| discriminate].
  intros H. inversion H. split; [exact Hlt | reflexivity].
Qed.

Lemma Forall2_at {A B} (R : A -> B -> Prop) (xs : list A) (ys : list B)
    (i : nat) (dx : A) (dy : B) :
  Forall2 R xs ys -> (i < length xs)%nat -> R (nth i xs dx) (nth i ys dy).
Proof.
  intros H. revert i. induction H as [| x y xs ys Hxy _ IH]; intros i Hi;
    simpl in *; [lia |].
  destruct i as [| i]; [exact Hxy | apply IH; lia].
Qed.

Lemma range_nth (n : Z) (i : nat) :
  (i < Z.to_nat n)%nat -> nth i (Py.range n) 0%Z = Z.of_nat i.
Proof.
  intros Hi. unfold Py.range.
  rewrite (nth_map_in Z.of_nat _ i 0%nat) by now rewrite length_seq.
  now rewrite seq_nth.
Qed.

Lemma range_down_nth (n : Z) (i : nat) :
  (i < Z.to_nat n)%nat -> nth i (Py.range_down n) 0%Z = (n - Z.of_nat i)%Z.
Proof.
  intros Hi. unfold Py.range_down.
  rewrite (nth_map_in _ _ i 0%nat) by now rewrite length_seq.
  now rewrite seq_nth.
Qed.

Section Generator.

Variable np_pi : Q.
Variable np_sin : Q -> Q.
Variable datetime_now : nat -> Z.

Lemma generated_timestamps_length (hours : Z) :
  length (generated_timestamps datetime_now hours) = Z.to_nat hours.
Proof.
  unfold generated_timestamps, Py.enumerate.
  rewrite length_map, length_combine, length_seq, range_down_length. lia.
Qed.

Lemma generated_timestamps_nth (hours : Z) (i : nat) :
  (i < Z.to_nat hours)%nat ->
  nth i (generated_timestamps datetime_now hours) 0%Z
  = (datetime_now i - timedelta_hours (hours - Z.of_nat i))%Z.
Proof.
  intros Hi. unfold generated_timestamps, Py.enumerate.
  rewrite (combine_by_index _ _ 0%nat 0%Z) by now rewrite length_seq.
  rewrite map_map, length_seq, range_down_length.
  rewrite (nth_map_in _ _ i 0%nat) by now rewrite length_seq.
  simpl fst. simpl snd.
  rewrite (seq_nth _ _ Hi). simpl Nat.add.
  rewrite (seq_nth _ _ Hi), range_down_nth by exact Hi.
  reflexivity.
Qed.

(** An invariant of the generator state that drawing preserves. *)
Variable I : RandomState -> Prop.
Hypothesis I_advance : forall s, I s -> I (advance s).

Lemma normal_entry_returns {A} (loc scale : Q) (g : A -> Q -> Q) (x : A)
    (s : RandomState) :
  I s ->
  exists y s',
    (n <- np.random_normal loc scale ;; ret (g x n)) s = Returned (y, s')
    /\ I s'.
Proof.
  intros Hs. eexists. eexists. split; [reflexivity | now apply I_advance].
Qed.

Lemma light_entry_returns (i : Z) (s : RandomState) :
  I s ->
  exists y s', light_entry np_pi np_sin i s = Returned (y, s') /\ I s'.
Proof.
  intros Hs. unfold light_entry.
  destruct (i mod 24 <? 12)%Z; eexists; eexists;
    (split; [reflexivity | now apply I_advance]).
Qed.

Lemma occupancy_entry_returns (i : Z) (s : RandomState) :
  I s ->
  exists y s', occupancy_entry np_pi np_sin i s = Returned (y, s') /\ I s'.
Proof.
  intros Hs. unfold occupancy_entry.
  destruct ((8 <=? i mod 24) && (i mod 24 <=? 18))%Z; eexists; eexists;
    (split; [reflexivity | first [exact Hs | now apply I_advance]]).
Qed.

Lemma light_entry_daytime (i : Z) (st st' : RandomState) (y : Q) :
  (i mod 24 < 12)%Z ->
  light_entry np_pi np_sin i st = Returned (y, st') -> 0 <= y.
Proof.
  intros Hday. unfold light_entry.
  apply Z.ltb_lt in Hday. rewrite Hday.
  unfold bind, np.random_normal, ret. intros H. inversion H.
  apply py_max_nonneg.
Qed.

Lemma light_entry_night (i : Z) (st st' : RandomState) (y : Q) :
  (12 <= i mod 24)%Z ->
  light_entry np_pi np_sin i st = Returned (y, st') ->
  y = 10 + 5 * std_normal st (cursor st).
Proof.
  intros Hnight. unfold light_entry.
  assert (H12 : (i mod 24 <? 12)%Z = false) by (apply Z.ltb_ge; exact Hnight).
  rewrite H12. unfold np.random_normal. intros H. now inversion H.
Qed.

Lemma occupancy_entry_nonneg (i : Z) (st st' : RandomState) (y : Z) :
  occupancy_entry np_pi np_sin i st = Returned (y, st') -> (0 <= y)%Z.
Proof.
  unfold occupancy_entry.
  destruct ((8 <=? i mod 24) && (i mod 24 <=? 18))%Z;
    unfold ret, np.random_poisson; intros H; inversion H; lia.
Qed.

(** The generator always returns; its table has one row per requested hour
    and is assembled from columns whose light and occupancy entries are values
    of [light_entry] and [occupancy_entry] at the row's index, taken in states
    that satisfy the invariant. *)
Lemma generate_realistic_data_columns (hours : Z) (st : RandomState) :
  I st ->
  exists temps hums lights energies occs st',
    length lights = Z.to_nat hours /\
    length occs = Z.to_nat hours /\
    Forall2 (fun i y => exists s s',
               I s /\ light_entry np_pi np_sin i s = Returned (y, s'))
      (Py.range hours) lights /\
    Forall2 (fun i y => exists s s',
               I s /\ occupancy_entry np_pi np_sin i s = Returned (y, s'))
      (Py.range hours) occs /\
    generate_realistic_data np_pi np_sin datetime_now hours st
    = Returned
        (map (fun i =>
                mkSensorRow (nth i (generated_timestamps datetime_now hours) 0%Z)
                  (nth i temps 0) (nth i hums 0) (nth i lights 0)
                  (nth i energies 0) (nth i occs 0%Z))
             (seq 0 (Z.to_nat hours)),
         st').
Proof.
  intros Hst.
  unfold generate_realistic_data. cbv zeta.
  fold (generated_timestamps datetime_now hours).
  fold (light_entry np_pi np_sin). fold (occupancy_entry np_pi np_sin).
  match goal with |- context [bind (comprehension ?f (Py.range hours)) _ st] =>
    destruct (comprehension_spec I f (Py.range hours)) with (st := st)
      as (temps & st1 & Htemps & Ltemps & Hst1 & _);
      [intros x s Hs;
       exact (normal_entry_returns 0 1
                (fun i n => base_temp + 5 * np_sin (2 * np_pi * inject_Z i / 24) + n)
                x s Hs)
      | exact Hst |]
  end.
  match goal with |- context [bind (comprehension ?f _) (fun _ => bind (comprehension ?g _) _)] =>
    destruct (comprehension_spec I g temps) with (st := st1)
      as (hums & st2 & Hhums & Lhums & Hst2 & _);
      [intros x s Hs;
       exact (normal_entry_returns 0 3
                (fun temp n => 60 - (temp - base_temp) + n) x s Hs)
      | exact Hst1 |]
  end.
  destruct (comprehension_spec I (light_entry np_pi np_sin) (Py.range hours))
    with (st := st2) as (lights & st3 & Hlights & Llights & Hst3 & Alights);
    [intros x s Hs; now apply light_entry_returns | exact Hst2 |].
  match goal with
  | |- context [bind (comprehension (light_entry np_pi np_sin) _)
                  (fun _ => bind (comprehension ?f _) _)] =>
    destruct (comprehension_spec I f (Py.range hours)) with (st := st3)
      as (energies & st4 & Henergies & Lenergies & Hst4 & _);
      [intros x s Hs;
       exact (normal_entry_returns 0 (5 # 10)
                (fun i n => 2 + 3 * np_sin (2 * np_pi * inject_Z i / 24) + n)
                x s Hs)
      | exact Hst3 |]
  end.
  destruct (comprehension_spec I (occupancy_entry np_pi np_sin) (Py.range hours))
    with (st := st4) as (occs & st5 & Hoccs & Loccs & Hst5 & Aoccs);
    [intros x s Hs; now apply occupancy_entry_returns | exact Hst4 |].
  rewrite range_length in *.
  exists temps, hums, lights, energies, occs, st5.
  split; [exact Llights |]. split; [exact Loccs |].
  split; [exact Alights |]. split; [exact Aoccs |].
  rewrite (bind_returned _ _ _ _ _ Htemps).
  rewrite (bind_returned _ _ _ _ _ Hhums).
  rewrite (bind_returned _ _ _ _ _ Hlights).
  rewrite (bind_returned _ _ _ _ _ Henergies).
  rewrite (bind_returned _ _ _ _ _ Hoccs).
  unfold lift, pd.DataFrame_sensor, pd.all_len. simpl forallb.
  rewrite generated_timestamps_length.
  rewrite Lhums, Ltemps, Llights, Lenergies, Loccs, Nat.eqb_refl.
  reflexivity.
Qed.

End Generator.

Section GeneratedSeries.

Variable np_pi : Q.
Variable np_sin : Q -> Q.
Variable datetime_now : nat -> Z.

(** What holds of every generated series: its length, the sign of the
    occupancy, the sign of the daytime light, and the timestamps. *)
Lemma generate_realistic_data_properties (hours : Z) (st : RandomState) :
  exists frame st',
    generate_realistic_data np_pi np_sin datetime_now hours st
    = Returned (frame, st') /\
    length frame = Z.to_nat hours /\
    Forall (fun r => (0 <= occupancy r)%Z) frame /\
    (forall i r, nth_error frame i = Some r ->
       (Z.of_nat i mod 24 < 12)%Z -> 0 <= light_level r) /\
    (forall i r, nth_error frame i = Some r ->
       timestamp r
       = (datetime_now i - timedelta_hours (hours - Z.of_nat i))%Z).
Proof.
  destruct (generate_realistic_data_columns np_pi np_sin datetime_now
              (fun _ => True) (fun _ _ => Logic.I) hours st Logic.I)
    as (temps & hums & lights & energies & occs & st'
        & Llights & Loccs & Hlights & Hoccs & Hrun).
  eexists. exists st'. split; [exact Hrun |].
  split; [now rewrite length_map, length_seq |].
  split; [| split].
  - apply Forall_forall. intros r Hr. apply in_map_iff in Hr.
    destruct Hr as (i & <- & Hi). apply in_seq in Hi. simpl.
    assert (Hat := Forall2_at _ (Py.range hours) occs i 0%Z 0%Z Hoccs).
    rewrite range_length in Hat.
    destruct (Hat ltac:(lia)) as (s & s' & _ & Hy).
    exact (occupancy_entry_nonneg _ _ _ _ _ _ Hy).
  - intros i r Hr Hday. apply nth_error_map_seq in Hr. destruct Hr as [Hi ->].
    simpl.
    assert (Hat := Forall2_at _ (Py.range hours) lights i 0%Z 0 Hlights).
    rewrite range_length in Hat. destruct (Hat Hi) as (s & s' & _ & Hy).
    rewrite range_nth in Hy by exact Hi.
    exact (light_entry_daytime _ _ _ _ _ _ Hday Hy).
  - intros i r Hr. apply nth_error_map_seq in Hr. destruct Hr as [Hi ->].
    simpl. now apply generated_timestamps_nth.
Qed.

(** Consecutive timestamps are one hour apart plus the time that passed
    between the two readings of the clock. *)
Lemma generated_timestamps_step (hours : Z) (st : RandomState) :
  exists frame st',
    generate_realistic_data np_pi np_sin datetime_now hours st
    = Returned (frame, st') /\
    forall i r r', nth_error frame i = Some r ->
      nth_error frame (S i) = Some r' ->
      (timestamp r' - timestamp r
       = timedelta_hours 1 + (datetime_now (S i) - datetime_now i))%Z.
Proof.
  destruct (generate_realistic_data_properties hours st)
    as (frame & st' & Hrun & _ & _ & _ & Hts).
  exists frame, st'. split; [exact Hrun |].
  intros i r r' Hr Hr'. rewrite (Hts _ _ Hr), (Hts _ _ Hr').
  unfold timedelta_hours. lia.
Qed.

(** When every normal deviate of the generator is [z], every row of the
    night half of a cycle has the light level 10 + 5 z. *)
Lemma generated_night_light (hours : Z) (st : RandomState) (z : Q) :
  (forall k, std_normal st k = z) ->
  exists frame st',
    generate_realistic_data np_pi np_sin datetime_now hours st
    = Returned (frame, st') /\
    length frame = Z.to_nat hours /\
    forall i r, nth_error frame i = Some r ->
      (12 <= Z.of_nat i mod 24)%Z -> light_level r = 10 + 5 * z.
Proof.
  intros Hz.
  destruct (generate_realistic_data_columns np_pi np_sin datetime_now
              (fun s => forall k, std_normal s k = z) (fun s H => H) hours st Hz)
    as (temps & hums & lights & energies & occs & st'
        & Llights & _ & Hlights & _ & Hrun).
  eexists. exists st'. split; [exact Hrun |].
  split; [now rewrite length_map, length_seq |].
  intros i r Hr Hnight. apply nth_error_map_seq in Hr. destruct Hr as [Hi ->].
  simpl.
  assert (Hat := Forall2_at _ (Py.range hours) lights i 0%Z 0 Hlights).
  rewrite range_length in Hat. destruct (Hat Hi) as (s & s' & Hs & Hy).
  rewrite range_nth in Hy by exact Hi.
  rewrite (light_entry_night _ _ _ _ _ _ Hnight Hy). now rewrite Hs.
Qed.

(** C8 (amended).  For a horizon <= 0 the synthesizer signals no error and
    returns the empty series; for a positive horizon whose timestamps stay in
    the range of datetime it completes without error and returns a series
    with one row per hour. *)
Theorem generate_realistic_data_total (hours : Z) (st : RandomState) :
  timestamps_representable datetime_now hours = true ->
  exists frame st',
    generate_realistic_data np_pi np_sin datetime_now hours st
    = Returned (frame, st') /\
    ((hours <= 0)%Z -> frame = []) /\
    ((0 < hours)%Z -> Py.len frame = hours).
Proof.
  intros _.
  destruct (generate_realistic_data_properties hours st)
    as (frame & st' & Hrun & Hlen & _).
  exists frame, st'. split; [exact Hrun |]. split.
  - intros Hle. apply length_zero_iff_nil. rewrite Hlen. lia.
  - intros Hpos. unfold Py.len. rewrite Hlen. lia.
Qed.

(** C5, the failing input.  With a horizon of 13 hours and normal deviates
    three standard deviations below the mean, the row of hour 12, the first
    of the night half of the cycle, has an ambient light of -5 lux. *)
Theorem night_light_level_negative :
  exists frame st' row,
    generate_realistic_data np_pi np_sin datetime_now 13 Sample.low_draws
    = Returned (frame, st') /\
    nth_error frame 12 = Some row /\
    light_level row == - (5) /\ light_level row < 0.
Proof.
  destruct (generated_night_light 13 Sample.low_draws (- (3)) (fun _ => eq_refl))
    as (frame & st' & Hrun & Hlen & Hnight).
  assert (Hrow : nth_error frame 12 = Some (nth 12 frame SensorRow_zero)).
  { apply nth_error_nth'. rewrite Hlen. apply Nat.ltb_lt. reflexivity. }
  exists frame, st', (nth 12 frame SensorRow_zero).
  split; [exact Hrun |]. split; [exact Hrow |].
  rewrite (Hnight 12%nat _ Hrow) by (vm_compute; discriminate).
  split; reflexivity.
Qed.

End GeneratedSeries.

Lemma generate_realistic_data_total_witness :
  (exists st',
     generate_realistic_data Sample.pi Sample.sin Sample.now (-5)
       Sample.low_draws = Returned ([], st')) /\
  (exists frame st',
     generate_realistic_data Sample.pi Sample.sin Sample.now 3
       Sample.low_draws = Returned (frame, st') /\
     Py.len frame = 3%Z).
Proof.
  split.
  - destruct (generate_realistic_data_total Sample.pi Sample.sin Sample.now
                (-5) Sample.low_draws eq_refl) as (frame & st' & Hrun & Hempty & _).
    exists st'. rewrite <- (Hempty ltac:(discriminate)). exact Hrun.
  - destruct (generate_realistic_data_total Sample.pi Sample.sin Sample.now
                3 Sample.low_draws eq_refl) as (frame & st' & Hrun & _ & Hlen).
    exists frame, st'. split; [exact Hrun | apply Hlen; reflexivity].
Defined.

(** C8 as stated fails: for the horizons 0 and -5 the synthesizer returns
    the empty series and signals nothing. *)
Lemma nonpositive_horizon_returns_empty_series :
  generate_realistic_data Sample.pi Sample.sin Sample.now 0 Sample.low_draws
  = Returned ([], Sample.low_draws) /\
  generate_realistic_data Sample.pi Sample.sin Sample.now (-5) Sample.low_draws
  = Returned ([], Sample.low_draws) /\
  ~ raises (generate_realistic_data Sample.pi Sample.sin Sample.now 0
              Sample.low_draws) /\
  ~ raises (generate_realistic_data Sample.pi Sample.sin Sample.now (-5)
              Sample.low_draws).
Proof.
  assert (H0 : generate_realistic_data Sample.pi Sample.sin Sample.now 0
                 Sample.low_draws = Returned ([], Sample.low_draws))
    by (vm_compute; reflexivity).
  assert (H5 : generate_realistic_data Sample.pi Sample.sin Sample.now (-5)
                 Sample.low_draws = Returned ([], Sample.low_draws))
    by (vm_compute; reflexivity).
  split; [exact H0 |]. split; [exact H5 |].
  split; intros [e He]; [rewrite H0 in He | rewrite H5 in He]; discriminate.
Qed.

(** With a clock that moves between two readings, consecutive timestamps of
    a generated series are more than one hour apart. *)
Lemma generated_timestamps_drift :
  exists frame st' r0 r1,
    generate_realistic_data Sample.pi Sample.sin Sample.now 2 Sample.low_draws
    = Returned (frame, st') /\
    nth_error frame 0 = Some r0 /\ nth_error frame 1 = Some r1 /\
    (timestamp r1 - timestamp r0 = 3600000001)%Z.
Proof.
  destruct (generated_timestamps_step Sample.pi Sample.sin Sample.now 2
              Sample.low_draws) as (frame & st' & Hrun & Hstep).
  destruct (generate_realistic_data_properties Sample.pi Sample.sin Sample.now
              2 Sample.low_draws) as (frame' & st'' & Hrun' & Hlen & _).
  rewrite Hrun in Hrun'. inversion Hrun'; subst frame' st''.
  assert (H0 : nth_error frame 0 = Some (nth 0 frame SensorRow_zero)).
  { apply nth_error_nth'. rewrite Hlen. apply Nat.ltb_lt. reflexivity. }
  assert (H1 : nth_error frame 1 = Some (nth 1 frame SensorRow_zero)).
  { apply nth_error_nth'. rewrite Hlen. apply Nat.ltb_lt. reflexivity. }
  exists frame, st', (nth 0 frame SensorRow_zero), (nth 1 frame SensorRow_zero).
  split; [exact Hrun |]. split; [exact H0 |]. split; [exact H1 |].
  rewrite (Hstep 0%nat _ _ H0 H1). reflexivity.
Qed.

(* ------------------------------------------------------------------ *)
(** ** Solar generation *)

Lemma Qle_bool_false (x y : Q) : Qle_bool x y = false -> y < x.
Proof.
  intros E. destruct (Qlt_le_dec y x) as [H | H]; [exact H |].
  apply Qle_bool_iff in H. congruence.
Qed.

Ltac qle_cases x y :=
  let E := fresh "E" in
  destruct (Qle_bool x y) eqn:E;
  [apply Qle_bool_iff in E | apply Qle_bool_false in E].

Lemma solar_sample_bounds (cap wf light : Q) :
  0 <= cap -> 0 <= wf ->
  0 <= Py.max 0 (Py.min (light * (1 # 10)) 1000 / 1000 * cap * wf)
    <= cap * wf.
Proof.
  intros Hcap Hwf. split; [apply py_max_nonneg |].
  assert (Hk : 0 <= cap * wf) by nra.
  unfold Py.max, Py.min.
  qle_cases (light * (1 # 10)) 1000.
  - qle_cases (light * (1 # 10) / 1000 * cap * wf) 0; [exact Hk |].
    setoid_replace (light * (1 # 10) / 1000 * cap * wf)
      with (light * (1 # 10000) * (cap * wf)) by field.
    nra.
  - qle_cases (1000 / 1000 * cap * wf) 0; [exact Hk |].
    setoid_replace (1000 / 1000 * cap * wf) with (cap * wf) by field.
    apply Qle_refl.
Qed.

Lemma solar_sample_curve (cap wf light : Q) :
  0 <= cap -> 0 <= wf ->
  solar_curve cap wf light
    (Py.max 0 (Py.min (light * (1 # 10)) 1000 / 1000 * cap * wf)).
Proof.
  intros Hcap Hwf.
  assert (Hk : 0 <= cap * wf) by nra.
  unfold solar_curve, Py.max, Py.min.
  qle_cases (light * (1 # 10)) 1000.
  - assert (Hp : light * (1 # 10) / 1000 * cap * wf
                 == light * (1 # 10000) * (cap * wf)) by field.
    assert (Hq : light / 10000 * cap * wf
                 == light * (1 # 10000) * (cap * wf)) by field.
    qle_cases (light * (1 # 10) / 1000 * cap * wf) 0.
    + rewrite Hp in E0. split; [| split].
      * intros _. reflexivity.
      * intros [H0 _]. rewrite Hq. nra.
      * intros H. nra.
    + rewrite Hp in E0. split; [| split].
      * intros H. nra.
      * intros _. rewrite Hp, Hq. reflexivity.
      * intros H. rewrite Hp.
        assert (Hl : light == 10000) by lra. rewrite Hl. field.
  - assert (Hp : 1000 / 1000 * cap * wf == cap * wf) by field.
    qle_cases (1000 / 1000 * cap * wf) 0.
    + rewrite Hp in E0. split; [| split].
      * intros _. reflexivity.
      * intros [_ H]. lra.
      * intros _. lra.
    + split; [| split].
      * intros H. lra.
      * intros [_ H]. lra.
      * intros _. exact Hp.
Qed.

(** One generation sample per light sample, each between 0 and the capacity
    derated by the weather factor. *)
Theorem calculate_generation_bounds (self : SolarPVSystem) (light_data : list Q)
    (weather_factor : Q) :
  0 <= capacity self -> 0 <= weather_factor ->
  length (calculate_generation self light_data weather_factor)
  = length light_data /\
  Forall (fun g => 0 <= g <= capacity self * weather_factor)
    (calculate_generation self light_data weather_factor).
Proof.
  intros Hcap Hwf. unfold calculate_generation.
  split; [apply length_map |].
  apply Forall_map, Forall_forall. intros light _.
  now apply solar_sample_bounds.
Qed.

Lemma calculate_generation_bounds_witness :
  Forall (fun g => 0 <= g <= 100 * (9 # 10))
    (calculate_generation SolarPVSystem_init [- (5); 400; 20000]
       weather_factor_default).
Proof.
  assert (Hcap : 0 <= capacity SolarPVSystem_init) by discriminate.
  assert (Hwf : 0 <= weather_factor_default) by discriminate.
  exact (proj2 (calculate_generation_bounds SolarPVSystem_init
                  [- (5); 400; 20000] weather_factor_default Hcap Hwf)).
Defined.

(** Each generation sample follows the solar curve of its light sample: zero
    at or below 0 lux, proportional to the light up to 10,000 lux, and the
    derated capacity from there on. *)
Theorem calculate_generation_curve (self : SolarPVSystem) (light_data : list Q)
    (weather_factor : Q) :
  0 <= capacity self -> 0 <= weather_factor ->
  Forall2 (solar_curve (capacity self) weather_factor) light_data
    (calculate_generation self light_data weather_factor).
Proof.
  intros Hcap Hwf. unfold calculate_generation.
  induction light_data as [| light rest IH]; simpl; constructor; [| exact IH].
  now apply solar_sample_curve.
Qed.

Lemma calculate_generation_curve_witness :
  exists dark mid bright,
    calculate_generation SolarPVSystem_init [- (5); 400; 20000]
      weather_factor_default = [dark; mid; bright] /\
    dark == 0 /\ mid == 36 # 10 /\ bright == 90.
Proof.
  assert (Hcap : 0 <= capacity SolarPVSystem_init) by discriminate.
  assert (Hwf : 0 <= weather_factor_default) by discriminate.
  assert (H := calculate_generation_curve SolarPVSystem_init
                 [- (5); 400; 20000] weather_factor_default Hcap Hwf).
  simpl in H.
  inversion H as [| l0 g0 ls0 gs0 H0 Hrest0]; subst.
  inversion Hrest0 as [| l1 g1 ls1 gs1 H1 Hrest1]; subst.
  inversion Hrest1 as [| l2 g2 ls2 gs2 H2 _]; subst.
  destruct H0 as (Hdark & _ & _).
  destruct H1 as (_ & Hmid & _).
  destruct H2 as (_ & _ & Hbright).
  eexists. eexists. eexists. split; [reflexivity |].
  split; [apply Hdark; discriminate |].
  split.
  - rewrite Hmid; [reflexivity | split; discriminate].
  - rewrite Hbright; [reflexivity | discriminate].
Defined.

(* ------------------------------------------------------------------ *)
(** ** Lighting load: range and switching *)

Lemma dimming_ratio (ambient threshold : Q) :
  0 < threshold ->
  (0 <= ambient -> 0 <= ambient / threshold) /\
  (ambient < 0 -> ambient / threshold < 0) /\
  (ambient < threshold -> ambient / threshold < 1).
Proof.
  intros Hthr. split; [| split]; intros H.
  - apply Qle_shift_div_l; [exact Hthr | lra].
  - apply Qlt_shift_div_r; [exact Hthr | lra].
  - apply Qlt_shift_div_r; [exact Hthr | lra].
Qed.

Lemma fixtures_nonneg (self : LightingSystem) :
  (0 <= fixtures self)%Z -> 0 <= inject_Z (fixtures self).
Proof. intros H. unfold Qle. simpl. lia. Qed.

(** With a non-negative ambient light the lighting load lies between 0 and
    the installed power, fixtures x power_per_fixture. *)
Theorem calculate_lighting_need_range (self : LightingSystem)
    (ambient_light : Q) (occ : Z) :
  (0 <= fixtures self)%Z -> 0 <= power_per_fixture self ->
  0 <= ambient_light ->
  0 <= calculate_lighting_need self ambient_light occ
    <= inject_Z (fixtures self) * power_per_fixture self.
Proof.
  intros HF Hp Ha. apply fixtures_nonneg in HF.
  assert (Hfull : 0 <= inject_Z (fixtures self) * power_per_fixture self) by nra.
  unfold calculate_lighting_need.
  destruct (occ =? 0)%Z; [split; [apply Qle_refl | exact Hfull] |].
  qle_cases (daylight_threshold self) ambient_light; simpl;
    [split; [apply Qle_refl | exact Hfull] |].
  assert (Hthr : 0 < daylight_threshold self) by lra.
  destruct (dimming_ratio ambient_light (daylight_threshold self) Hthr)
    as (Hge & _ & Hlt).
  specialize (Hge Ha). specialize (Hlt E).
  set (q := ambient_light / daylight_threshold self) in *.
  split; nra.
Qed.

Lemma calculate_lighting_need_range_witness :
  0 <= calculate_lighting_need LightingSystem_init 150 5 <= 100 * (4 # 100).
Proof.
  assert (HF : (0 <= fixtures LightingSystem_init)%Z) by discriminate.
  assert (Hp : 0 <= power_per_fixture LightingSystem_init) by discriminate.
  assert (Ha : 0 <= 150) by discriminate.
  exact (calculate_lighting_need_range LightingSystem_init 150 5 HF Hp Ha).
Defined.

(** With a negative ambient light, as the generator can produce at night, an
    occupied room draws more than the installed lighting power. *)
Theorem calculate_lighting_need_above_installed_power (self : LightingSystem)
    (ambient_light : Q) (occ : Z) :
  0 < inject_Z (fixtures self) * power_per_fixture self ->
  0 < daylight_threshold self ->
  ambient_light < 0 -> occ <> 0%Z ->
  inject_Z (fixtures self) * power_per_fixture self
  < calculate_lighting_need self ambient_light occ.
Proof.
  intros Hfull Hthr Ha Hocc. unfold calculate_lighting_need.
  apply Z.eqb_neq in Hocc. rewrite Hocc.
  qle_cases (daylight_threshold self) ambient_light; simpl; [lra |].
  destruct (dimming_ratio ambient_light (daylight_threshold self) Hthr)
    as (_ & Hneg & _).
  specialize (Hneg Ha).
  set (q := ambient_light / daylight_threshold self) in *.
  nra.
Qed.

Lemma calculate_lighting_need_above_installed_power_witness :
  100 * (4 # 100) < calculate_lighting_need LightingSystem_init (- (5)) 2.
Proof.
  assert (Hfull : 0 < inject_Z (fixtures LightingSystem_init)
                      * power_per_fixture LightingSystem_init) by reflexivity.
  assert (Hthr : 0 < daylight_threshold LightingSystem_init) by reflexivity.
  assert (Ha : - (5) < 0) by reflexivity.
  assert (Hocc : 2%Z <> 0%Z) by discriminate.
  exact (calculate_lighting_need_above_installed_power LightingSystem_init
           (- (5)) 2 Hfull Hthr Ha Hocc).
Defined.

(** Row by row, the lighting consumption of a sensor table is zero exactly
    where the room is unoccupied or the daylight suffices. *)
Theorem energy_consumption_off_rows (self : LightingSystem)
    (sensor_data : list SensorRow) :
  0 < inject_Z (fixtures self) * power_per_fixture self ->
  0 < daylight_threshold self ->
  Forall2
    (fun row p =>
       p == 0 <->
       (occupancy row = 0%Z \/ daylight_threshold self <= light_level row))
    sensor_data (energy_consumption self sensor_data).
Proof.
  intros Hfull Hthr. unfold energy_consumption.
  induction sensor_data as [| row rows IH]; simpl; constructor; [| exact IH].
  unfold calculate_lighting_need.
  destruct (Z.eqb_spec (occupancy row) 0) as [Hocc | Hocc].
  - split; [intros _; left; exact Hocc | reflexivity].
  - qle_cases (daylight_threshold self) (light_level row); simpl.
    + split; [intros _; right; exact E | reflexivity].
    + destruct (dimming_ratio (light_level row) (daylight_threshold self) Hthr)
        as (_ & _ & Hlt).
      specialize (Hlt E).
      set (q := light_level row / daylight_threshold self) in *.
      split.
      * intros H0. exfalso. nra.
      * intros [H | H]; [contradiction | lra].
Qed.

Lemma energy_consumption_off_rows_witness :
  exists p_empty p_dark p_bright,
    energy_consumption LightingSystem_init
      [Sample.sensor_row 0 26 55 150 0;
       Sample.sensor_row 3600000000 26 55 150 5;
       Sample.sensor_row 7200000000 26 55 1000 5]
    = [p_empty; p_dark; p_bright] /\
    p_empty == 0 /\ ~ p_dark == 0 /\ p_bright == 0.
Proof.
  assert (Hfull : 0 < inject_Z (fixtures LightingSystem_init)
                      * power_per_fixture LightingSystem_init) by reflexivity.
  assert (Hthr : 0 < daylight_threshold LightingSystem_init) by reflexivity.
  assert (H := energy_consumption_off_rows LightingSystem_init
                 [Sample.sensor_row 0 26 55 150 0;
                  Sample.sensor_row 3600000000 26 55 150 5;
                  Sample.sensor_row 7200000000 26 55 1000 5] Hfull Hthr).
  simpl in H.
  inversion H as [| r0 p0 rs0 ps0 H0 Hrest0]; subst.
  inversion Hrest0 as [| r1 p1 rs1 ps1 H1 Hrest1]; subst.
  inversion Hrest1 as [| r2 p2 rs2 ps2 H2 _]; subst.
  eexists. eexists. eexists. split; [reflexivity |].
  split; [apply H0; left; reflexivity |].
  split.
  - intros Hz. apply H1 in Hz.
    destruct Hz as [Hz | Hz]; [discriminate Hz | exact (Hz eq_refl)].
  - apply H2. right. discriminate.
Defined.

(* ------------------------------------------------------------------ *)
(** ** HVAC load: monotonicity *)

(** The HVAC load does not decrease when the temperature moves away from
    the set-point, the occupancy grows or the exterior gets warmer. *)
Theorem calculate_load_monotone (self : HVACSystem) (t1 t2 : Q)
    (occ1 occ2 : Z) (ext1 ext2 : Q) :
  0 < hvac_efficiency self ->
  Qabs (t1 - target_temp self) <= Qabs (t2 - target_temp self) ->
  (occ1 <= occ2)%Z -> ext1 <= ext2 ->
  calculate_load self t1 occ1 ext1 <= calculate_load self t2 occ2 ext2.
Proof.
  intros Heff Ht Hocc Hext.
  rewrite !calculate_load_formula.
  apply Q.min_le_compat_r.
  unfold hvac_formula, Qdiv.
  apply Qmult_le_compat_r; [| apply Qinv_le_0_compat, Qlt_le_weak, Heff].
  assert (Ho : inject_Z occ1 <= inject_Z occ2) by (rewrite <- Zle_Qle; exact Hocc).
  lra.
Qed.

Lemma calculate_load_monotone_witness :
  calculate_load HVACSystem_init 25 0 30 <= calculate_load HVACSystem_init 22 8 35.
Proof.
  assert (Heff : 0 < hvac_efficiency HVACSystem_init) by reflexivity.
  assert (Ht : Qabs (25 - target_temp HVACSystem_init)
               <= Qabs (22 - target_temp HVACSystem_init)) by discriminate.
  assert (Hocc : (0 <= 8)%Z) by discriminate.
  assert (Hext : 30 <= 35) by discriminate.
  exact (calculate_load_monotone HVACSystem_init 25 22 0 8 30 35
           Heff Ht Hocc Hext).
Defined.

(* ------------------------------------------------------------------ *)
(** ** The aggregator: grid exchange, timestamps and draws *)

Lemma balance_row_grid_exchange self row b :
  grid_exchange (balance_row self row b).
Proof.
  unfold grid_exchange, balance_row. cbv zeta.
  cbn [total_consumption solar_generation net_energy grid_import grid_export].
  set (total := _ + _ + b). set (s := Py.max 0 _).
  qle_cases (total - s) 0; qle_cases (- (total - s)) 0;
    repeat split; lra.
Qed.

(** On every row of the energy balance the grid import and export are
    non-negative, their difference is the net energy, and consumption plus
    export equals generation plus import. *)
Theorem energy_balance_grid_exchange (self : BuildingEnergyManagement)
    (sensor_data : list SensorRow) (st : RandomState) :
  exists frame st',
    calculate_energy_balance self sensor_data st = Returned (frame, st') /\
    Forall grid_exchange frame.
Proof.
  destruct (calculate_energy_balance_rowwise self sensor_data st)
    as (base & st' & Hlen & Hrun).
  exists (balance_rows self sensor_data base), st'.
  split; [exact Hrun |].
  apply Forall_forall. intros r Hr. unfold balance_rows in Hr.
  apply in_map_iff in Hr. destruct Hr as ([row b] & <- & _).
  apply balance_row_grid_exchange.
Qed.

Lemma energy_balance_timestamps_aux (self : BuildingEnergyManagement)
    (sensor_data : list SensorRow) (st : RandomState) :
  exists frame st',
    calculate_energy_balance self sensor_data st = Returned (frame, st') /\
    length frame = length sensor_data /\
    map b_timestamp frame = map timestamp sensor_data.
Proof.
  destruct (calculate_energy_balance_rowwise self sensor_data st)
    as (base & st' & Hlen & Hrun).
  exists (balance_rows self sensor_data base), st'.
  split; [exact Hrun |]. split; [now apply balance_rows_length |].
  unfold balance_rows. rewrite map_map.
  exact (map_fst_combine timestamp sensor_data base Hlen).
Qed.

(** The energy balance carries the timestamps of the sensor table, in the
    same order. *)
Theorem energy_balance_timestamps (self : BuildingEnergyManagement)
    (sensor_data : list SensorRow) (st : RandomState) :
  exists frame st',
    calculate_energy_balance self sensor_data st = Returned (frame, st') /\
    map b_timestamp frame = map timestamp sensor_data.
Proof.
  destruct (calculate_energy_balance_rowwise self sensor_data st)
    as (base & st' & Hlen & Hrun).
  exists (balance_rows self sensor_data base), st'.
  split; [exact Hrun |].
  unfold balance_rows. rewrite map_map.
  exact (map_fst_combine timestamp sensor_data base Hlen).
Qed.

Lemma advance_by_succ (n : nat) (st : RandomState) :
  advance_by n (advance st) = advance_by (S n) st.
Proof.
  unfold advance_by, advance. simpl. f_equal. lia.
Qed.

(** A comprehension that takes one normal deviate per element reads the
    tape at consecutive positions, starting at the cursor. *)
Lemma comprehension_normal_draws {A} (loc scale : Q) (g : A -> Q -> Q)
    (xs : list A) :
  forall st,
    comprehension (fun x => n <- np.random_normal loc scale ;; ret (g x n)) xs st
    = Returned
        (map (fun kx => g (snd kx) (loc + scale * std_normal st (fst kx)))
             (combine (seq (cursor st) (length xs)) xs),
         advance_by (length xs) st).
Proof.
  induction xs as [| x xs IH]; intros st.
  - simpl. unfold ret, advance_by. destruct st as [zs ps c]. simpl.
    now rewrite Nat.add_0_r.
  - cbn [comprehension].
    rewrite (bind_returned _ _ st
               (g x (loc + scale * std_normal st (cursor st))) (advance st))
      by reflexivity.
    rewrite (bind_returned _ _ _ _ _ (IH (advance st))).
    unfold ret. rewrite advance_by_succ. reflexivity.
Qed.

Lemma map_snd_combine {A B C} (f : B -> C) (a : list A) (b : list B) :
  length a = length b -> map (fun p => f (snd p)) (combine a b) = map f b.
Proof.
  revert b. induction a as [| x a IH]; intros [| y b] H; simpl in *;
    try discriminate; [reflexivity |].
  f_equal. apply IH. lia.
Qed.

(** The aggregator takes exactly one normal deviate per row, at consecutive
    positions of the tape: the base load of row [i] is 3 + 0.2 z, with [z]
    the deviate at position cursor + i, and the generator is left
    len(sensor_data) draws further. *)
Theorem energy_balance_base_load_draws (self : BuildingEnergyManagement)
    (sensor_data : list SensorRow) (st : RandomState) :
  exists frame,
    calculate_energy_balance self sensor_data st
    = Returned (frame, advance_by (length sensor_data) st) /\
    map base_load frame
    = map (fun k => 3 + (0 + (2 # 10) * std_normal st k))
          (seq (cursor st) (length sensor_data)).
Proof.
  assert (Hdraws := comprehension_normal_draws 0 (2 # 10)
                      (fun (_ : Z) n => 3 + n)
                      (Py.range (Py.len sensor_data)) st).
  rewrite range_len in Hdraws.
  set (base := map _ (combine _ _)) in Hdraws.
  assert (Hbase : base = map (fun k => 3 + (0 + (2 # 10) * std_normal st k))
                           (seq (cursor st) (length sensor_data))).
  { subst base.
    exact (map_fst_combine
             (fun k => 3 + (0 + (2 # 10) * std_normal st k))
             (seq (cursor st) (length sensor_data))
             (Py.range (Py.len sensor_data))
             ltac:(now rewrite range_len, length_seq)). }
  assert (Hlen : length base = length sensor_data)
    by (rewrite Hbase; now rewrite length_map, length_seq).
  exists (balance_rows self sensor_data base).
  split; [now apply calculate_energy_balance_from_base |].
  rewrite <- Hbase. unfold balance_rows. rewrite map_map.
  transitivity (map (fun p : SensorRow * Q => snd p) (combine sensor_data base));
    [apply map_ext; intros [row b]; reflexivity |].
  rewrite (map_snd_combine (fun b => b) sensor_data base (eq_sym Hlen)).
  apply map_id.
Qed.

(* ------------------------------------------------------------------ *)
(** ** The assessor: derived facts *)

Lemma sum_app (a b : list Q) : Py.sum (a ++ b) == Py.sum a + Py.sum b.
Proof.
  induction a as [| x a IH]; simpl.
  - unfold Py.sum at 2. simpl. ring.
  - rewrite !sum_cons, IH. ring.
Qed.

Lemma sum_nonneg (l : list Q) : Forall (fun x => 0 <= x) l -> 0 <= Py.sum l.
Proof.
  induction 1 as [| x l Hx _ IH]; [apply Qle_refl |].
  rewrite sum_cons. lra.
Qed.

Lemma sum_map_difference {A} (f g h : A -> Q) (l : list A) :
  Forall (fun r => f r - g r == h r) l ->
  Py.sum (map f l) - Py.sum (map g l) == Py.sum (map h l).
Proof.
  induction 1 as [| r l Hr _ IH]; simpl; [reflexivity |].
  rewrite !sum_cons, <- IH, <- Hr. ring.
Qed.

(** The net emissions computed from an energy balance are the emission
    factor times the net energy of the window, that is, times total
    consumption minus solar generation. *)
Theorem carbon_net_emissions_of_balance (bems : BuildingEnergyManagement)
    (sa : SustainabilityAssessment) (sensor_data : list SensorRow)
    (st : RandomState) :
  exists frame st' c,
    calculate_energy_balance bems sensor_data st = Returned (frame, st') /\
    calculate_carbon_footprint sa frame = Returned c /\
    net_emissions_kg_co2 c
    == emission_factor sa * Py.sum (map net_energy frame) /\
    net_emissions_kg_co2 c
    == emission_factor sa
       * (Py.sum (map total_consumption frame)
          - Py.sum (map solar_generation frame)).
Proof.
  destruct (calculate_energy_balance_rowwise bems sensor_data st)
    as (base & st' & Hlen & Hrun).
  set (frame := balance_rows bems sensor_data base) in *.
  assert (Hex : Forall grid_exchange frame).
  { apply Forall_forall. intros r Hr. subst frame. unfold balance_rows in Hr.
    apply in_map_iff in Hr. destruct Hr as ([row b] & <- & _).
    apply balance_row_grid_exchange. }
  assert (Hinv : Forall balance_invariant frame).
  { apply Forall_forall. intros r Hr. subst frame. unfold balance_rows in Hr.
    apply in_map_iff in Hr. destruct Hr as ([row b] & <- & _).
    apply balance_row_invariant. }
  assert (Hnet : Py.sum (map grid_import frame) - Py.sum (map grid_export frame)
                 == Py.sum (map net_energy frame)).
  { apply sum_map_difference. eapply Forall_impl; [| exact Hex].
    intros r Hr. apply Hr. }
  assert (Htot : Py.sum (map total_consumption frame)
                 - Py.sum (map solar_generation frame)
                 == Py.sum (map net_energy frame)).
  { apply sum_map_difference. eapply Forall_impl; [| exact Hinv].
    intros r (_ & Hr & _). symmetry. exact Hr. }
  exists frame, st'. eexists.
  split; [exact Hrun |]. split; [reflexivity |].
  cbn [net_emissions_kg_co2].
  split; [rewrite <- Hnet | rewrite Htot, <- Hnet]; ring.
Qed.

Lemma epi_times_area (self : SustainabilityAssessment) (annual : Q) :
  0 < building_area self ->
  (calculate_epi self annual - ecbc_epi_limit self) * building_area self
  == annual - ecbc_epi_limit self * building_area self.
Proof.
  intros HA. unfold calculate_epi. field.
  intros H0. rewrite H0 in HA. discriminate.
Qed.

(** The verdict is compliant exactly when no savings are required, and the
    required savings are the annual consumption in excess of
    limit x building area. *)
Theorem compliance_iff_no_savings (self : SustainabilityAssessment)
    (energy_data : list BalanceRow) :
  0 < building_area self ->
  exists r,
    assess_ecbc_compliance self energy_data = Returned r /\
    (compliance r = true <-> savings_potential r == 0) /\
    savings_potential r
    == Qmax 0 (annual_consumption_kwh r
               - ecbc_epi_limit self * building_area self).
Proof.
  intros HA. eexists. split; [reflexivity |].
  cbn [compliance savings_potential annual_consumption_kwh].
  set (annual := Py.sum _ * 52).
  assert (Hexcess := epi_times_area self annual HA).
  set (d := calculate_epi self annual - ecbc_epi_limit self) in *.
  assert (Hverdict : Qle_bool (calculate_epi self annual) (ecbc_epi_limit self)
                     = true <-> d <= 0).
  { rewrite Qle_bool_iff. subst d. split; intros H; lra. }
  destruct (Qlt_le_dec 0 d) as [Hpos | Hneg].
  - assert (Hmax : Py.max 0 d == d) by (apply py_max0_pos; lra).
    split.
    + rewrite Hverdict, Hmax. split; intros H; [lra | nra].
    + rewrite Hmax, Hexcess. symmetry. apply Q.max_r. nra.
  - assert (Hmax : Py.max 0 d == 0) by now apply py_max0_zero.
    split.
    + rewrite Hverdict, Hmax. split; intros _; [ring | exact Hneg].
    + rewrite Hmax. setoid_replace (0 * building_area self) with 0 by ring.
      symmetry. apply Q.max_l. nra.
Qed.

Lemma compliance_iff_no_savings_witness :
  exists r,
    assess_ecbc_compliance SustainabilityAssessment_init Sample.week_20000
      = Returned r /\
    savings_potential r == Qmax 0 (annual_consumption_kwh r - 200 * 5000).
Proof.
  destruct (compliance_iff_no_savings SustainabilityAssessment_init
              Sample.week_20000 eq_refl) as (r & Hr & _ & Hsav).
  exists r. split; [exact Hr | exact Hsav].
Defined.

(** Assessing two windows joined end to end adds up the annual consumption
    and every carbon figure of the two windows. *)
Theorem assessments_additive (self : SustainabilityAssessment)
    (w1 w2 : list BalanceRow) :
  exists r1 r2 r c1 c2 c,
    assess_ecbc_compliance self w1 = Returned r1 /\
    assess_ecbc_compliance self w2 = Returned r2 /\
    assess_ecbc_compliance self (w1 ++ w2) = Returned r /\
    calculate_carbon_footprint self w1 = Returned c1 /\
    calculate_carbon_footprint self w2 = Returned c2 /\
    calculate_carbon_footprint self (w1 ++ w2) = Returned c /\
    annual_consumption_kwh r
    == annual_consumption_kwh r1 + annual_consumption_kwh r2 /\
    gross_emissions_kg_co2 c
    == gross_emissions_kg_co2 c1 + gross_emissions_kg_co2 c2 /\
    carbon_offset_kg_co2 c
    == carbon_offset_kg_co2 c1 + carbon_offset_kg_co2 c2 /\
    net_emissions_kg_co2 c
    == net_emissions_kg_co2 c1 + net_emissions_kg_co2 c2 /\
    annual_net_emissions_tonnes c
    == annual_net_emissions_tonnes c1 + annual_net_emissions_tonnes c2.
Proof.
  do 6 eexists. do 6 (split; [reflexivity |]).
  cbn [annual_consumption_kwh gross_emissions_kg_co2 carbon_offset_kg_co2
       net_emissions_kg_co2 annual_net_emissions_tonnes].
  rewrite !map_app, !sum_app.
  repeat split; field.
Qed.

(** Because the extrapolation factor is fixed, lengthening a window by rows
    of non-negative consumption never lowers the required savings and never
    turns a non-compliant verdict into a compliant one. *)
Theorem longer_window_never_improves_verdict (self : SustainabilityAssessment)
    (w extra : list BalanceRow) :
  0 < building_area self ->
  Forall (fun r => 0 <= total_consumption r) extra ->
  exists r1 r2,
    assess_ecbc_compliance self w = Returned r1 /\
    assess_ecbc_compliance self (w ++ extra) = Returned r2 /\
    epi_kwh_m2_year r1 <= epi_kwh_m2_year r2 /\
    (compliance r2 = true -> compliance r1 = true) /\
    savings_potential r1 <= savings_potential r2.
Proof.
  intros HA Hextra. do 2 eexists. do 2 (split; [reflexivity |]).
  cbn [epi_kwh_m2_year compliance savings_potential].
  rewrite map_app.
  assert (Hsum : Py.sum (map total_consumption w)
                 <= Py.sum (map total_consumption w
                            ++ map total_consumption extra)).
  { rewrite sum_app.
    assert (H := sum_nonneg (map total_consumption extra)
                   (proj2 (Forall_map _ _ _) Hextra)).
    lra. }
  set (s1 := Py.sum (map total_consumption w)) in *.
  set (s2 := Py.sum (_ ++ _)) in *.
  assert (Hepi : calculate_epi self (s1 * 52) <= calculate_epi self (s2 * 52)).
  { unfold calculate_epi, Qdiv. apply Qmult_le_compat_r; [lra |].
    apply Qinv_le_0_compat. lra. }
  split; [exact Hepi |]. split.
  - rewrite !Qle_bool_iff. intros H. lra.
  - rewrite !py_max_spec.
    apply Qmult_le_compat_r; [| lra].
    apply Q.max_le_compat_l. lra.
Qed.

Lemma longer_window_never_improves_verdict_witness :
  exists r1 r2,
    assess_ecbc_compliance SustainabilityAssessment_init Sample.week_20000
      = Returned r1 /\
    assess_ecbc_compliance SustainabilityAssessment_init
      (Sample.week_20000 ++ Sample.week_500_100) = Returned r2 /\
    savings_potential r1 <= savings_potential r2.
Proof.
  assert (Hextra : Forall (fun r => 0 <= total_consumption r)
                     Sample.week_500_100).
  { apply Forall_forall. intros r Hr. unfold Sample.week_500_100 in Hr.
    apply in_map_iff in Hr. destruct Hr as (k & <- & _).
    destruct (k <? 100)%Z; [discriminate |].
    destruct (k <? 150)%Z; discriminate. }
  destruct (longer_window_never_improves_verdict SustainabilityAssessment_init
              Sample.week_20000 Sample.week_500_100 eq_refl Hextra)
    as (r1 & r2 & H1 & H2 & _ & _ & Hsav).
  exists r1, r2. repeat split; assumption.
Defined.

(* ------------------------------------------------------------------ *)
(** ** Generated series: what the synthesizer guarantees *)

Lemma clock_monotone (now : nat -> Z) :
  (forall k, (now k <= now (S k))%Z) ->
  forall i j, (i <= j)%nat -> (now i <= now j)%Z.
Proof.
  intros Hstep i j Hij. induction Hij as [| j _ IH]; [lia |].
  specialize (Hstep j). lia.
Qed.

Section GeneratedSeriesFacts.

Variable np_pi : Q.
Variable np_sin : Q -> Q.
Variable datetime_now : nat -> Z.

(** Whenever the timestamps of the horizon stay in the range of datetime,
    the generator returns, whatever the draws, a series with one row per hour
    of a non-negative horizon, a non-negative occupancy on every row, and a
    non-negative light level on every row of the day half of a cycle. *)
Theorem generated_series_occupancy_and_daylight (hours : Z)
    (st : RandomState) :
  timestamps_representable datetime_now hours = true ->
  exists frame st',
    generate_realistic_data np_pi np_sin datetime_now hours st
    = Returned (frame, st') /\
    length frame = Z.to_nat hours /\
    Forall (fun r => (0 <= occupancy r)%Z) frame /\
    (forall i r, nth_error frame i = Some r ->
       (Z.of_nat i mod 24 < 12)%Z -> 0 <= light_level r).
Proof.
  intros _.
  destruct (generate_realistic_data_properties np_pi np_sin datetime_now
              hours st) as (frame & st' & Hrun & Hlen & Hocc & Hday & _).
  exists frame, st'. repeat split; assumption.
Qed.

(** When no normal deviate of the tape is more than two standard deviations
    below the mean, every light level of the generated series, by day and by
    night, is non-negative. *)
Theorem generated_light_nonneg_for_bounded_deviates (hours : Z)
    (st : RandomState) :
  (forall k, - (2) <= std_normal st k) ->
  exists frame st',
    generate_realistic_data np_pi np_sin datetime_now hours st
    = Returned (frame, st') /\
    Forall (fun r => 0 <= light_level r) frame.
Proof.
  intros Hz.
  destruct (generate_realistic_data_columns np_pi np_sin datetime_now
              (fun s => forall k, - (2) <= std_normal s k) (fun s H => H)
              hours st Hz)
    as (temps & hums & lights & energies & occs & st'
        & Llights & _ & Hlights & _ & Hrun).
  eexists. exists st'. split; [exact Hrun |].
  apply Forall_forall. intros r Hr. apply in_map_iff in Hr.
  destruct Hr as (i & <- & Hi). apply in_seq in Hi. simpl.
  assert (Hat := Forall2_at _ (Py.range hours) lights i 0%Z 0 Hlights).
  rewrite range_length in Hat.
  destruct (Hat ltac:(lia)) as (s & s' & Hs & Hy).
  destruct (Z_lt_le_dec (nth i (Py.range hours) 0%Z mod 24) 12) as [Hd | Hn].
  - exact (light_entry_daytime _ _ _ _ _ _ Hd Hy).
  - rewrite (light_entry_night _ _ _ _ _ _ Hn Hy).
    specialize (Hs (cursor s)). lra.
Qed.

(** When the clock never runs backwards, the timestamps of a generated
    series increase strictly: two rows [j - i] places apart are stamped at
    least [j - i] hours apart. *)
Theorem generated_timestamps_increasing (hours : Z) (st : RandomState) :
  (forall k, (datetime_now k <= datetime_now (S k))%Z) ->
  exists frame st',
    generate_realistic_data np_pi np_sin datetime_now hours st
    = Returned (frame, st') /\
    forall i j r r', (i < j)%nat ->
      nth_error frame i = Some r -> nth_error frame j = Some r' ->
      (timestamp r < timestamp r')%Z /\
      (timestamp r + timedelta_hours (Z.of_nat (j - i)) <= timestamp r')%Z.
Proof.
  intros Hclock.
  destruct (generate_realistic_data_properties np_pi np_sin datetime_now
              hours st) as (frame & st' & Hrun & _ & _ & _ & Hts).
  exists frame, st'. split; [exact Hrun |].
  intros i j r r' Hij Hr Hr'.
  rewrite (Hts _ _ Hr), (Hts _ _ Hr').
  assert (Hnow := clock_monotone datetime_now Hclock i j ltac:(lia)).
  unfold timedelta_hours. split; lia.
Qed.

End GeneratedSeriesFacts.

Lemma sample_clock_monotone (k : nat) : (Sample.now k <= Sample.now (S k))%Z.
Proof. unfold Sample.now. lia. Qed.

Lemma generated_series_occupancy_and_daylight_witness :
  exists frame st',
    generate_realistic_data Sample.pi Sample.sin Sample.now 30 Sample.low_draws
    = Returned (frame, st') /\
    length frame = 30%nat /\
    Forall (fun r => (0 <= occupancy r)%Z) frame.
Proof.
  destruct (generated_series_occupancy_and_daylight Sample.pi Sample.sin
              Sample.now 30 Sample.low_draws eq_refl)
    as (frame & st' & Hrun & Hlen & Hocc & _).
  exists frame, st'. repeat split; assumption.
Defined.

Lemma generated_light_nonneg_for_bounded_deviates_witness :
  exists frame st',
    generate_realistic_data Sample.pi Sample.sin Sample.now 30 Sample.mean_draws
    = Returned (frame, st') /\
    Forall (fun r => 0 <= light_level r) frame.
Proof.
  assert (Hz : forall k, - (2) <= std_normal Sample.mean_draws k)
    by (intros k; discriminate).
  exact (generated_light_nonneg_for_bounded_deviates Sample.pi Sample.sin
           Sample.now 30 Sample.mean_draws Hz).
Defined.

Lemma generated_timestamps_increasing_witness :
  exists frame st',
    generate_realistic_data Sample.pi Sample.sin Sample.now 3 Sample.low_draws
    = Returned (frame, st') /\
    forall r r', nth_error frame 0 = Some r -> nth_error frame 2 = Some r' ->
      (timestamp r + timedelta_hours 2 <= timestamp r')%Z.
Proof.
  destruct (generated_timestamps_increasing Sample.pi Sample.sin Sample.now 3
              Sample.low_draws sample_clock_monotone)
    as (frame & st' & Hrun & Hinc).
  exists frame, st'. split; [exact Hrun |].
  intros r r' Hr Hr'.
  exact (proj2 (Hinc 0%nat 2%nat r r' ltac:(lia) Hr Hr')).
Defined.

(* ------------------------------------------------------------------ *)
(** ** The combined table *)

Lemma merge_in (left : list SensorRow) (right : list BalanceRow)
    (s : SensorRow) (b : BalanceRow) :
  In (s, b) (merge_on_timestamp left right) <->
  In s left /\ In b right /\ b_timestamp b = timestamp s.
Proof.
  unfold merge_on_timestamp. rewrite in_flat_map. split.
  - intros (s' & Hs' & Hin). apply in_map_iff in Hin.
    destruct Hin as (b' & Heq & Hb'). inversion Heq; subst.
    apply filter_In in Hb'. destruct Hb' as [Hb' Hkey].
    apply Z.eqb_eq in Hkey. auto.
  - intros (Hs & Hb & Hkey). exists s. split; [exact Hs |].
    apply in_map. apply filter_In. split; [exact Hb |].
    now apply Z.eqb_eq.
Qed.

Lemma filter_no_key (right : list BalanceRow) (t : Z) :
  ~ In t (map b_timestamp right) ->
  filter (fun b => (b_timestamp b =? t)%Z) right = [].
Proof.
  induction right as [| x right IH]; intros Hnot; simpl; [reflexivity |].
  destruct (Z.eqb_spec (b_timestamp x) t) as [Heq | Hne].
  - exfalso. apply Hnot. left. exact Heq.
  - apply IH. intros Hin. apply Hnot. right. exact Hin.
Qed.

Lemma filter_unique_key (right : list BalanceRow) (b : BalanceRow) :
  NoDup (map b_timestamp right) -> In b right ->
  filter (fun x => (b_timestamp x =? b_timestamp b)%Z) right = [b].
Proof.
  induction right as [| x right IH]; intros Hnd Hin; [contradiction |].
  simpl in Hnd. inversion Hnd as [| k ks Hnotin Hnd']; subst.
  simpl. destruct Hin as [-> | Hin].
  - rewrite Z.eqb_refl. f_equal. now apply filter_no_key.
  - destruct (Z.eqb_spec (b_timestamp x) (b_timestamp b)) as [Heq | Hne].
    + exfalso. apply Hnotin. rewrite Heq. now apply in_map.
    + now apply IH.
Qed.

Lemma merge_unique_keys_aux (right : list BalanceRow) :
  NoDup (map b_timestamp right) ->
  forall l r,
    Forall2 (fun s b => b_timestamp b = timestamp s) l r -> incl r right ->
    flat_map
      (fun s => map (fun b => (s, b))
                  (filter (fun b => (b_timestamp b =? timestamp s)%Z) right))
      l
    = combine l r.
Proof.
  intros Hnd l r H. induction H as [| s b l r Hkey _ IH]; intros Hincl;
    [reflexivity |].
  simpl. rewrite <- Hkey.
  rewrite (filter_unique_key right b Hnd (Hincl b (or_introl eq_refl))).
  simpl. f_equal. apply IH. intros x Hx. apply Hincl. now right.
Qed.

Lemma same_keys_Forall2 (left : list SensorRow) (right : list BalanceRow) :
  map b_timestamp right = map timestamp left ->
  Forall2 (fun s b => b_timestamp b = timestamp s) left right.
Proof.
  revert right. induction left as [| s left IH]; intros [| b right] H;
    simpl in H; try discriminate; constructor.
  - now inversion H.
  - apply IH. now inversion H.
Qed.

(** When the timestamps of the left table are pairwise distinct and the
    right table carries the same timestamps in the same order, the merge
    pairs the two tables row by row. *)
Lemma merge_unique_keys (left : list SensorRow) (right : list BalanceRow) :
  NoDup (map timestamp left) ->
  map b_timestamp right = map timestamp left ->
  merge_on_timestamp left right = combine left right.
Proof.
  intros Hnd Hkeys. unfold merge_on_timestamp.
  apply merge_unique_keys_aux.
  - now rewrite Hkeys.
  - now apply same_keys_Forall2.
  - apply incl_refl.
Qed.

Lemma increasing_NoDup (l : list Z) :
  (forall i j, (i < j < length l)%nat -> (nth i l 0 < nth j l 0)%Z) ->
  NoDup l.
Proof.
  intros Hinc. apply (NoDup_nth l 0%Z). intros i j Hi Hj Heq.
  destruct (Nat.lt_trichotomy i j) as [Hlt | [Heq' | Hgt]]; [| exact Heq' |].
  - specialize (Hinc i j ltac:(lia)). lia.
  - specialize (Hinc j i ltac:(lia)). lia.
Qed.

Lemma nth_error_combine {A B} (a : list A) (b : list B) (i : nat)
    (x : A) (y : B) :
  nth_error a i = Some x -> nth_error b i = Some y ->
  nth_error (combine a b) i = Some (x, y).
Proof.
  revert b i. induction a as [| x0 a IH]; intros [| y0 b] [| i] Ha Hb;
    simpl in *; try discriminate.
  - inversion Ha. inversion Hb. reflexivity.
  - now apply IH.
Qed.

Section Simulation.

Variable np_pi : Q.
Variable np_sin : Q -> Q.
Variable datetime_now : nat -> Z.

(** When the clock never runs backwards, the timestamps stay in the range of
    datetime and the divisors of the load models are nonzero, [run_simulation]
    returns, and the combined table it returns is the generated series zipped
    with the energy balance of that series: one row per hour of the horizon,
    the i-th joining the i-th sensor row with the i-th balance row, which
    carry the same timestamp.  The assessments returned are those of that
    balance, and the twin is left with one more table in its history, the
    combined table. *)
Theorem run_simulation_combined_rows (self : DigitalTwin) (hours : Z)
    (st : RandomState) :
  (forall k, (datetime_now k <= datetime_now (S k))%Z) ->
  timestamps_representable datetime_now hours = true ->
  divisors_nonzero (bems self) ->
  exists sensor_data st1 energy_data st2 r c self',
    generate_realistic_data np_pi np_sin datetime_now hours st
    = Returned (sensor_data, st1) /\
    calculate_energy_balance (bems self) sensor_data st1
    = Returned (energy_data, st2) /\
    assess_ecbc_compliance (sustainability self) energy_data = Returned r /\
    calculate_carbon_footprint (sustainability self) energy_data = Returned c /\
    run_simulation np_pi np_sin datetime_now self hours st
    = Returned ((combine sensor_data energy_data, r, c, self'), st2) /\
    data_history self' = data_history self ++ [combine sensor_data energy_data] /\
    length sensor_data = Z.to_nat hours /\
    length energy_data = Z.to_nat hours /\
    (forall i s b,
       nth_error sensor_data i = Some s -> nth_error energy_data i = Some b ->
       nth_error (combine sensor_data energy_data) i = Some (s, b) /\
       b_timestamp b = timestamp s).
Proof.
  intros Hclock _ _.
  destruct (generate_realistic_data_properties np_pi np_sin datetime_now
              hours st) as (sensor_data & st1 & Hgen & Hlen & _ & _ & Hts).
  destruct (energy_balance_timestamps_aux (bems self) sensor_data st1)
    as (energy_data & st2 & Hbal & Hlen2 & Hkeys).
  assert (Hnd : NoDup (map timestamp sensor_data)).
  { apply increasing_NoDup. rewrite length_map. intros i j Hij.
    rewrite !(nth_map_in timestamp sensor_data _ SensorRow_zero) by lia.
    assert (Hi : nth_error sensor_data i = Some (nth i sensor_data SensorRow_zero))
      by (apply nth_error_nth'; lia).
    assert (Hj : nth_error sensor_data j = Some (nth j sensor_data SensorRow_zero))
      by (apply nth_error_nth'; lia).
    rewrite (Hts i _ Hi), (Hts j _ Hj).
    assert (Hnow := clock_monotone datetime_now Hclock i j ltac:(lia)).
    unfold timedelta_hours. lia. }
  exists sensor_data, st1, energy_data, st2. do 3 eexists.
  split; [exact Hgen |]. split; [exact Hbal |].
  split; [reflexivity |]. split; [reflexivity |].
  split.
  { unfold run_simulation.
    rewrite (bind_returned _ _ _ _ _ Hgen).
    rewrite (bind_returned _ _ _ _ _ Hbal).
    rewrite (merge_unique_keys sensor_data energy_data Hnd Hkeys).
    reflexivity. }
  split; [reflexivity |].
  split; [exact Hlen |]. split; [congruence |].
  intros i s b Hs Hb. split.
  - exact (nth_error_combine sensor_data energy_data i s b Hs Hb).
  - assert (Hk : nth_error (map b_timestamp energy_data) i
                 = nth_error (map timestamp sensor_data) i) by now rewrite Hkeys.
    rewrite !nth_error_map, Hs, Hb in Hk. simpl in Hk. now inversion Hk.
Qed.

End Simulation.

Lemma run_simulation_combined_rows_witness :
  exists sensor_data energy_data r c self' st',
    run_simulation Sample.pi Sample.sin Sample.now DigitalTwin_init 3
      Sample.low_draws
    = Returned ((combine sensor_data energy_data, r, c, self'), st') /\
    length sensor_data = 3%nat /\ length energy_data = 3%nat.
Proof.
  assert (Hdiv : divisors_nonzero (bems DigitalTwin_init))
    by (split; intros H; vm_compute in H; discriminate H).
  destruct (run_simulation_combined_rows Sample.pi Sample.sin Sample.now
              DigitalTwin_init 3 Sample.low_draws sample_clock_monotone
              eq_refl Hdiv)
    as (sensor_data & st1 & energy_data & st2 & r & c & self'
        & _ & _ & _ & _ & Hrun & _ & Hlen1 & Hlen2 & _).
  exists sensor_data, energy_data, r, c, self', st2.
  split; [exact Hrun |]. split; [exact Hlen1 | exact Hlen2].
Defined.

(* ------------------------------------------------------------------ *)
(** ** Ranges under the default equipment *)

Lemma calculate_lighting_need_nonneg (self : LightingSystem)
    (ambient_light : Q) (occ : Z) :
  (0 <= fixtures self)%Z -> 0 <= power_per_fixture self ->
  0 < daylight_threshold self ->
  0 <= calculate_lighting_need self ambient_light occ.
Proof.
  intros HF Hp Hthr. apply fixtures_nonneg in HF.
  unfold calculate_lighting_need.
  destruct (occ =? 0)%Z; [apply Qle_refl |].
  qle_cases (daylight_threshold self) ambient_light; simpl; [apply Qle_refl |].
  destruct (dimming_ratio ambient_light (daylight_threshold self) Hthr)
    as (_ & _ & Hlt).
  specialize (Hlt E).
  set (q := ambient_light / daylight_threshold self) in *.
  assert (Hfull : 0 <= inject_Z (fixtures self) * power_per_fixture self) by nra.
  set (full := inject_Z (fixtures self) * power_per_fixture self) in *.
  nra.
Qed.

Lemma default_hvac_load_range (t : Q) (occ : Z) :
  (0 <= occ)%Z ->
  0 < calculate_load HVACSystem_init t occ external_temp_default <= 50.
Proof.
  intros Hocc. split; [| apply (py_min_le_r _ (power_rating HVACSystem_init))].
  rewrite calculate_load_formula.
  apply Q.min_glb_lt; [| reflexivity].
  unfold hvac_formula, HVACSystem_init, external_temp_default.
  cbn [target_temp hvac_efficiency].
  apply Qlt_shift_div_l; [reflexivity |].
  assert (Habs := Qabs_nonneg (t - 24)).
  assert (Ho : 0 <= inject_Z occ) by (unfold Qle; simpl; lia).
  lra.
Qed.

Lemma balance_row_default_ranges (row : SensorRow) (b : Q) :
  (0 <= occupancy row)%Z ->
  default_ranges (balance_row BuildingEnergyManagement_init row b).
Proof.
  intros Hocc.
  destruct (balance_row_grid_exchange BuildingEnergyManagement_init row b)
    as (Himp & Hexp & _).
  unfold default_ranges. split; [| split; [| split; [| split]]];
    [| | | exact Himp | exact Hexp];
    unfold balance_row; cbv zeta;
    cbn [hvac_consumption lighting_consumption solar_generation].
  - now apply default_hvac_load_range.
  - apply calculate_lighting_need_nonneg; reflexivity || discriminate.
  - assert (H := solar_sample_bounds 100 weather_factor_default
                   (light_level row) ltac:(discriminate) ltac:(discriminate)).
    cbn [solar capacity BuildingEnergyManagement_init SolarPVSystem_init].
    destruct H as [H0 H1]. split; [exact H0 |].
    eapply Qle_trans; [exact H1 |]. discriminate.
Qed.

Section DefaultTwin.

Variable np_pi : Q.
Variable np_sin : Q -> Q.
Variable datetime_now : nat -> Z.

(** Whatever the horizon, the draws and the clock, every row of the table
    returned by a run of the default twin has a non-negative occupancy, an
    HVAC load above 0 and at most 50 kW, a non-negative lighting load, a solar
    generation between 0 and 90 kW, and non-negative grid import and
    export. *)
Theorem run_simulation_default_ranges (hours : Z) (st : RandomState) :
  exists combined r c self' st',
    run_simulation np_pi np_sin datetime_now DigitalTwin_init hours st
    = Returned ((combined, r, c, self'), st') /\
    Forall (fun p => (0 <= occupancy (fst p))%Z /\ default_ranges (snd p))
      combined.
Proof.
  destruct (generate_realistic_data_properties np_pi np_sin datetime_now
              hours st) as (sensor_data & st1 & Hgen & _ & Hocc & _).
  destruct (calculate_energy_balance_rowwise BuildingEnergyManagement_init
              sensor_data st1) as (base & st2 & Hlen & Hbal).
  do 4 eexists. exists st2. split.
  - unfold run_simulation.
    rewrite (bind_returned _ _ _ _ _ Hgen).
    cbn [bems DigitalTwin_init].
    rewrite (bind_returned _ _ _ _ _ Hbal).
    reflexivity.
  - rewrite Forall_forall in Hocc.
    apply Forall_forall. intros [s b] Hin. apply merge_in in Hin.
    destruct Hin as (Hs & Hb & _). simpl. split; [now apply Hocc |].
    unfold balance_rows in Hb. apply in_map_iff in Hb.
    destruct Hb as ([row q] & <- & Hrow). apply in_combine_l in Hrow.
    apply balance_row_default_ranges. now apply Hocc.
Qed.

End DefaultTwin.
